(** * Mattermost custom emoji extractor: a shallow embedding

    The program under study is [custom_emoji_extractor.py]: a class
    [MattermostEmojiExtractor] with the methods [test_connection],
    [get_custom_emojis], [get_all_custom_emojis], [download_emoji_image]
    and [extract_emojis], and a [main] function.

    The program is a sequence of HTTP requests, file writes and prints.
    It is embedded as functions in a state-and-exception monad over a
    [world] that records every request issued, every byte printed, every
    directory created and every file written.  What the outside answers
    (the HTTP server, the operating system, Python's own formatting of
    containers) is an [Env]: the definitions and theorems are stated for
    an arbitrary one. *)

From Stdlib Require Import ZArith Ascii String List DecimalString.
From stdpp Require Import gmap strings list.

Open Scope string_scope.

(** ** Python values *)

(** A float is observed by this program in two ways only: its truth
    value ([not emojis]) and its text in an f-string. *)
Record pyfloat := { float_is_zero : bool; float_text : string }.

(** The values [response.json()] can produce.  A [PDict] is the list of
    the items in insertion order; an item list with a repeated key stands
    for the dict obtained by inserting its items from left to right. *)
#[warnings="-register-all"]
Inductive pyval : Type :=
| PNone
| PBool (b : bool)
| PInt (z : Z)
| PFloat (f : pyfloat)
| PStr (s : string)
| PList (l : list pyval)
| PDict (items : list (string * pyval)).

(** Exceptions, all of them subclasses of Python's [Exception]. *)
Inductive exn : Type :=
| RequestException (msg : string)
| JSONDecodeError (msg : string)
| AttributeError (msg : string)
| TypeError (msg : string)
| KeyError (key : string)
| OSError (msg : string).

(** [str(e)], as interpolated by [f"{e}"]. *)
Definition exn_str (e : exn) : string :=
  match e with
  | RequestException m | JSONDecodeError m | AttributeError m
  | TypeError m | OSError m => m
  | KeyError k => "'" +:+ k +:+ "'"
  end.

(** ** Strings *)

(** [s.rstrip('/')] *)
Fixpoint rstrip_slash (s : string) : string :=
  match s with
  | EmptyString => EmptyString
  | String c t =>
      match rstrip_slash t with
      | EmptyString => if Ascii.eqb c "/" then EmptyString else String c EmptyString
      | t' => String c t'
      end
  end.

(** [s.startswith(p)] *)
Fixpoint startswith (p s : string) : bool :=
  match p, s with
  | EmptyString, _ => true
  | String a p', String b s' => Ascii.eqb a b && startswith p' s'
  | String _ _, EmptyString => false
  end.

(** [needle in hay], Python's substring test on strings. *)
Fixpoint str_in (needle hay : string) : bool :=
  startswith needle hay ||
  match hay with
  | EmptyString => false
  | String _ t => str_in needle t
  end.

(** [s.endswith('/')] *)
Fixpoint endswith_slash (s : string) : bool :=
  match s with
  | EmptyString => false
  | String c EmptyString => Ascii.eqb c "/"
  | String _ t => endswith_slash t
  end.

(** [os.path.join(a, b)] for two components (posixpath). *)
Definition os_path_join (a b : string) : string :=
  if startswith "/" b then b
  else if (String.eqb a "" || endswith_slash a)%bool then a +:+ b
  else a +:+ "/" +:+ b.

(** [s * n] *)
Fixpoint str_repeat (s : string) (n : nat) : string :=
  match n with
  | O => ""
  | S n' => s +:+ str_repeat s n'
  end.

(** [str(z)] for an int. *)
Definition str_of_Z (z : Z) : string := NilZero.string_of_int (Z.to_int z).

Definition str_of_nat (n : nat) : string := str_of_Z (Z.of_nat n).

(** The characters of a str, each as a one-character str.  Strings are
    held as UTF-8 bytes: a continuation byte (10xxxxxx) belongs to the
    character that the nearest byte to its left starts. *)
Definition is_continuation (c : ascii) : bool :=
  match c with
  | Ascii _ _ _ _ _ _ b6 b7 => b7 && negb b6
  end.

Definition starts_with_continuation (s : string) : bool :=
  match s with
  | EmptyString => false
  | String d _ => is_continuation d
  end.

Fixpoint str_chars (s : string) : list string :=
  match s with
  | EmptyString => []
  | String c t =>
      match str_chars t with
      | ch :: rest =>
          if starts_with_continuation t then String c ch :: rest
          else String c EmptyString :: ch :: rest
      | [] => [String c EmptyString]
      end
  end.

(** ** Operations on Python values *)

(** The keys of a dict in iteration order: the order of first insertion. *)
Fixpoint dict_keys (items : list (string * pyval)) (seen : list string) : list string :=
  match items with
  | [] => []
  | (k, _) :: rest =>
      if existsb (String.eqb k) seen then dict_keys rest seen
      else k :: dict_keys rest (k :: seen)
  end.

(** [d[k]] when present: the value of the last insertion under [k]. *)
Fixpoint dict_lookup (items : list (string * pyval)) (k : string) : option pyval :=
  match items with
  | [] => None
  | (k', v) :: rest =>
      match dict_lookup rest k with
      | Some v' => Some v'
      | None => if String.eqb k' k then Some v else None
      end
  end.

(** [type(v).__name__] *)
Definition type_name (v : pyval) : string :=
  match v with
  | PNone => "NoneType"
  | PBool _ => "bool"
  | PInt _ => "int"
  | PFloat _ => "float"
  | PStr _ => "str"
  | PList _ => "list"
  | PDict _ => "dict"
  end.

(** [bool(v)]; [not v] is its negation. *)
Definition py_truthy (v : pyval) : bool :=
  match v with
  | PNone => false
  | PBool b => b
  | PInt z => negb (Z.eqb z 0)
  | PFloat f => negb (float_is_zero f)
  | PStr s => negb (String.eqb s "")
  | PList l => match l with [] => false | _ => true end
  | PDict items => match items with [] => false | _ => true end
  end.

(** The elements [list.extend(v)] appends, or the [TypeError] it raises. *)
Definition py_iter (v : pyval) : exn + list pyval :=
  match v with
  | PList l => inr l
  | PDict items => inr (map PStr (dict_keys items []))
  | PStr s => inr (map PStr (str_chars s))
  | _ => inl (TypeError ("'" +:+ type_name v +:+ "' object is not iterable"))
  end.

(** [len(v)] *)
Definition py_len (v : pyval) : exn + nat :=
  match py_iter v with
  | inr l => inr (length l)
  | inl _ => inl (TypeError ("object of type '" +:+ type_name v +:+ "' has no len()"))
  end.

(** [v[key]] for a str key. *)
Definition py_getitem (v : pyval) (key : string) : exn + pyval :=
  match v with
  | PDict items =>
      match dict_lookup items key with
      | Some x => inr x
      | None => inl (KeyError key)
      end
  | PStr _ => inl (TypeError "string indices must be integers, not 'str'")
  | PList _ => inl (TypeError "list indices must be integers or slices, not str")
  | _ => inl (TypeError ("'" +:+ type_name v +:+ "' object is not subscriptable"))
  end.

(** [v.get(key, default)] *)
Definition py_get (v : pyval) (key : string) (default : pyval) : exn + pyval :=
  match v with
  | PDict items =>
      match dict_lookup items key with
      | Some x => inr x
      | None => inr default
      end
  | _ => inl (AttributeError ("'" +:+ type_name v +:+ "' object has no attribute 'get'"))
  end.

(** ** Requests, responses and the world *)

(** A call of [self.session.get(url, params=..., stream=...)], with the
    headers the session was given in [__init__]. *)
Record request := {
  req_url : string;
  req_params : list (string * pyval);
  req_stream : bool;
  req_headers : list (string * string);
}.

(** A [requests.Response], by what the program reads of it:
    [status_code], [text], the result of [json()] (the message of the
    decode error it raises, or the decoded value), the value of
    [headers.get('content-type')] when the header is there, and the
    chunks [iter_content] yields, followed by the transport error it
    raises when the stream breaks. *)
Record response := {
  status_code : Z;
  text : string;
  json : string + pyval;
  content_type : option string;
  iter_content : list string;
  iter_error : option string;
}.

(** What [session.get] does: raise, or return a response. *)
Inductive http_outcome : Type :=
| Fails (msg : string)
| Responds (r : response).

(** Everything the program does to the outside, in order: the requests
    it issued, the text it printed, the directories it created, the
    contents of the files it wrote and how often it slept for 0.1 s. *)
Record world := {
  w_requests : list request;
  w_stdout : list string;
  w_dirs : gset string;
  w_files : gmap string string;
  w_sleeps : nat;
}.

(** The outside.  The answer to a request, and whether the operating
    system refuses to create a directory or to open a file for writing
    (the message of the [OSError]), may depend on everything that
    happened before.  Once a file is open, writing to it succeeds, and so
    does printing.  Paths are joined as on POSIX.  [json_dumps v] is
    the text of [json.dump(v, f, indent=2)], [py_repr] is Python's
    formatting of lists and dicts, [os_path_abspath] is
    [os.path.abspath]. *)
Record Env := {
  http_get : world -> request -> http_outcome;
  mkdir_error : world -> string -> option string;
  open_error : world -> string -> option string;
  json_dumps : pyval -> string;
  py_repr : pyval -> string;
  os_path_abspath : string -> string;
}.

(** ** The monad of actions *)

(** An action returns, raises an exception, or is cut off when the fuel
    of a [while True] loop is used up. *)
Inductive outcome (A : Type) : Type :=
| Ret (a : A)
| Raise (e : exn)
| OutOfFuel.
Arguments Ret {A} a.
Arguments Raise {A} e.
Arguments OutOfFuel {A}.

Definition action (A : Type) : Type := world -> outcome A * world.

#[global] Instance action_ret : MRet action :=
  fun A (a : A) w => (Ret a, w).

#[global] Instance action_bind : MBind action :=
  fun A B (k : A -> action B) (m : action A) w =>
    match m w with
    | (Ret a, w') => k a w'
    | (Raise e, w') => (Raise e, w')
    | (OutOfFuel, w') => (OutOfFuel, w')
    end.

Definition raise {A : Type} (e : exn) : action A := fun w => (Raise e, w).

Definition out_of_fuel {A : Type} : action A := fun w => (OutOfFuel, w).

(** [try: body  except Exception as e: handler e] *)
Definition try_except {A : Type} (body : action A) (handler : exn -> action A) : action A :=
  fun w =>
    match body w with
    | (Raise e, w') => handler e w'
    | r => r
    end.

(** An operation on values that returns or raises. *)
Definition lift {A : Type} (r : exn + A) : action A :=
  match r with
  | inl e => raise e
  | inr a => mret a
  end.

Definition nl : string := String (ascii_of_nat 10) EmptyString.

(** The five ways the program changes the world. *)
Definition record_request (req : request) (w : world) : world :=
  {| w_requests := w_requests w ++ [req]; w_stdout := w_stdout w;
     w_dirs := w_dirs w; w_files := w_files w; w_sleeps := w_sleeps w |}.

Definition add_stdout (s : string) (w : world) : world :=
  {| w_requests := w_requests w; w_stdout := w_stdout w ++ [s];
     w_dirs := w_dirs w; w_files := w_files w; w_sleeps := w_sleeps w |}.

Definition set_dirs (d : gset string) (w : world) : world :=
  {| w_requests := w_requests w; w_stdout := w_stdout w;
     w_dirs := d; w_files := w_files w; w_sleeps := w_sleeps w |}.

Definition set_files (f : gmap string string) (w : world) : world :=
  {| w_requests := w_requests w; w_stdout := w_stdout w;
     w_dirs := w_dirs w; w_files := f; w_sleeps := w_sleeps w |}.

Definition add_sleep (w : world) : world :=
  {| w_requests := w_requests w; w_stdout := w_stdout w;
     w_dirs := w_dirs w; w_files := w_files w; w_sleeps := S (w_sleeps w) |}.

(** [print(s, end=e)] *)
Definition print_end (s e : string) : action unit :=
  fun w => (Ret tt, add_stdout (s +:+ e) w).

(** [print(s)] *)
Definition print (s : string) : action unit := print_end s nl.

(** [time.sleep(0.1)] *)
Definition time_sleep : action unit :=
  fun w => (Ret tt, add_sleep w).

(** [f.write(chunk)] on the file opened at [path]. *)
Definition file_write (path chunk : string) : action unit :=
  fun w => (Ret tt, set_files (<[path := default "" (w_files w !! path) +:+ chunk]> (w_files w)) w).

Fixpoint write_chunks (path : string) (chunks : list string) : action unit :=
  match chunks with
  | [] => mret tt
  | chunk :: rest => file_write path chunk;; write_chunks path rest
  end.

(** ** The extractor *)

(** The object [__init__] builds: the three attributes the methods read.
    The base URL loses its trailing slashes. *)
Record MattermostEmojiExtractor := {
  server_url : string;
  access_token : string;
  headers : list (string * string);
}.

Definition __init__ (server_url access_token : string) : MattermostEmojiExtractor :=
  {| server_url := rstrip_slash server_url;
     access_token := access_token;
     headers := [("Authorization", "Bearer " +:+ access_token);
                 ("Content-Type", "application/json")] |}.

(** The [if]/[elif] chain of [download_emoji_image] that picks the file
    extension from the content type. *)
Definition extension_of (content_type : string) : string :=
  if str_in "png" content_type then ".png"
  else if str_in "gif" content_type then ".gif"
  else if (str_in "jpeg" content_type || str_in "jpg" content_type)%bool then ".jpg"
  else ".png".

Section Extractor.

Variable env : Env.

(** [f"{v}"] *)
Definition py_format (v : pyval) : string :=
  match v with
  | PNone => "None"
  | PBool true => "True"
  | PBool false => "False"
  | PInt z => str_of_Z z
  | PFloat f => float_text f
  | PStr s => s
  | PList _ | PDict _ => py_repr env v
  end.

(** [self.session.get(url, params=params, stream=stream)] *)
Definition session_get (self : MattermostEmojiExtractor) (url : string)
    (params : list (string * pyval)) (stream : bool) : action response :=
  fun w =>
    let req := {| req_url := url; req_params := params; req_stream := stream;
                  req_headers := headers self |} in
    match http_get env w req with
    | Fails msg => (Raise (RequestException msg), record_request req w)
    | Responds r => (Ret r, record_request req w)
    end.

(** [response.json()] *)
Definition response_json (r : response) : action pyval :=
  match json r with
  | inl msg => raise (JSONDecodeError msg)
  | inr v => mret v
  end.

(** [Path(path).mkdir(exist_ok=True)] *)
Definition path_mkdir (path : string) : action unit :=
  fun w =>
    match mkdir_error env w path with
    | Some msg => (Raise (OSError msg), w)
    | None => (Ret tt, set_dirs ({[path]} ∪ w_dirs w) w)
    end.

(** [open(path, 'w')] and [open(path, 'wb')]: the file is created or
    emptied. *)
Definition open_write (path : string) : action unit :=
  fun w =>
    match open_error env w path with
    | Some msg => (Raise (OSError msg), w)
    | None => (Ret tt, set_files (<[path := ""]> (w_files w)) w)
    end.

Definition test_connection (self : MattermostEmojiExtractor) : action bool :=
  try_except
    (response ← session_get self (server_url self +:+ "/api/v4/users/me") [] false;
     if (status_code response =? 200)%Z then
       user_data ← response_json response;
       username ← lift (py_get user_data "username" (PStr "Unknown"));
       print ("✓ Connected successfully as: " +:+ py_format username);;
       mret true
     else
       print ("✗ Connection failed: " +:+ str_of_Z (status_code response)
              +:+ " - " +:+ text response);;
       mret false)
    (fun e => print ("✗ Connection error: " +:+ exn_str e);; mret false).

Definition get_custom_emojis (self : MattermostEmojiExtractor) (page per_page : Z) : action pyval :=
  let params := [("page", PInt page); ("per_page", PInt per_page); ("sort", PStr "name")] in
  try_except
    (response ← session_get self (server_url self +:+ "/api/v4/emoji") params false;
     if (status_code response =? 200)%Z then
       response_json response
     else
       print ("Error fetching emojis: " +:+ str_of_Z (status_code response)
              +:+ " - " +:+ text response);;
       mret (PList []))
    (fun e => print ("Error fetching emojis: " +:+ exn_str e);; mret (PList [])).

(** The [while True] loop of [get_all_custom_emojis]; [fuel] bounds the
    number of iterations.  The result is [all_emojis] at the [break]. *)
Fixpoint get_all_loop (fuel : nat) (self : MattermostEmojiExtractor)
    (page per_page : Z) (all_emojis : list pyval) : action (list pyval) :=
  match fuel with
  | O => out_of_fuel
  | S fuel' =>
      emojis ← get_custom_emojis self page per_page;
      if negb (py_truthy emojis) then mret all_emojis
      else
        items ← lift (py_iter emojis);
        let all_emojis := (all_emojis ++ items)%list in
        n ← lift (py_len emojis);
        print ("Retrieved " +:+ str_of_nat n +:+ " emojis from page "
               +:+ str_of_Z (page + 1));;
        if (Z.of_nat n <? per_page)%Z then mret all_emojis
        else
          time_sleep;;
          get_all_loop fuel' self (page + 1) per_page all_emojis
  end.

Definition get_all_custom_emojis (fuel : nat) (self : MattermostEmojiExtractor)
    : action (list pyval) :=
  print "Fetching custom emojis...";;
  all_emojis ← get_all_loop fuel self 0 200 [];
  print ("✓ Total custom emojis found: " +:+ str_of_nat (length all_emojis));;
  mret all_emojis.

Definition download_emoji_image (self : MattermostEmojiExtractor)
    (emoji_id emoji_name : pyval) (download_dir : string) : action bool :=
  try_except
    (response ← session_get self
       (server_url self +:+ "/api/v4/emoji/" +:+ py_format emoji_id +:+ "/image") [] true;
     if (status_code response =? 200)%Z then
       let content_type := default "" (content_type response) in
       let ext := extension_of content_type in
       let filename := py_format emoji_name +:+ ext in
       let filepath := os_path_join download_dir filename in
       open_write filepath;;
       write_chunks filepath (iter_content response);;
       match iter_error response with
       | Some msg => raise (RequestException msg)
       | None => mret true
       end
     else
       print ("Failed to download " +:+ py_format emoji_name +:+ ": "
              +:+ str_of_Z (status_code response));;
       mret false)
    (fun e => print ("Error downloading " +:+ py_format emoji_name +:+ ": " +:+ exn_str e);;
              mret false).

(** The [for i, emoji in enumerate(emojis, 1)] loop of [extract_emojis];
    [total] is [len(emojis)] of the whole list.  The result is
    [success_count]. *)
Fixpoint download_each (self : MattermostEmojiExtractor) (download_dir : string)
    (total : nat) (emojis : list pyval) (i success_count : nat) : action nat :=
  match emojis with
  | [] => mret success_count
  | emoji :: rest =>
      emoji_id ← lift (py_getitem emoji "id");
      emoji_name ← lift (py_getitem emoji "name");
      print_end ("[" +:+ str_of_nat i +:+ "/" +:+ str_of_nat total +:+ "] Downloading "
                 +:+ py_format emoji_name +:+ "...") " ";;
      ok ← download_emoji_image self emoji_id emoji_name download_dir;
      success_count ← (if ok : bool then print "✓";; mret (S success_count)
                       else print "✗";; mret success_count);
      time_sleep;;
      download_each self download_dir total rest (S i) success_count
  end.

Definition extract_emojis (fuel : nat) (self : MattermostEmojiExtractor)
    (download_dir : string) : action unit :=
  path_mkdir download_dir;;
  connected ← test_connection self;
  if negb connected then mret tt
  else
    emojis ← get_all_custom_emojis fuel self;
    if negb (py_truthy (PList emojis)) then
      print "No custom emojis found or unable to retrieve emojis.";;
      mret tt
    else
      let metadata_file := os_path_join download_dir "emoji_metadata.json" in
      open_write metadata_file;;
      file_write metadata_file (json_dumps env (PList emojis));;
      print ("✓ Saved emoji metadata to " +:+ metadata_file);;
      print (nl +:+ "Downloading emoji images to " +:+ download_dir +:+ "...");;
      success_count ← download_each self download_dir (length emojis) emojis 1 0;
      print (nl +:+ "✓ Downloaded " +:+ str_of_nat success_count +:+ "/"
             +:+ str_of_nat (length emojis) +:+ " emojis successfully!");;
      print ("✓ Files saved to: " +:+ os_path_abspath env download_dir).

(** [main], with its three configuration constants as parameters. *)
Definition main_with (MATTERMOST_URL ACCESS_TOKEN DOWNLOAD_DIR : string) (fuel : nat)
    : action unit :=
  print "Mattermost Custom Emoji Extractor";;
  print (str_repeat "=" 40);;
  if (String.eqb MATTERMOST_URL "https://your-mattermost-server.com"
      || String.eqb ACCESS_TOKEN "your-access-token-here")%bool then
    print "⚠️  Please update the configuration variables:";;
    print "   - MATTERMOST_URL: Your Mattermost server URL";;
    print "   - ACCESS_TOKEN: Your personal access token";;
    print (nl +:+ "To get a personal access token:");;
    print "1. Go to Account Settings → Security → Personal Access Tokens";;
    print "2. Create a new token with appropriate permissions";;
    print "3. Copy the token and update the ACCESS_TOKEN variable";;
    mret tt
  else
    let extractor := __init__ MATTERMOST_URL ACCESS_TOKEN in
    extract_emojis fuel extractor DOWNLOAD_DIR.

(** [main] as the source has it: the constants at the values of lines
    209 to 211. *)
Definition main (fuel : nat) : action unit :=
  main_with "https://your-mattermost-server.com" "your-access-token-here"
            "mattermost_emojis" fuel.

End Extractor.

(** ** Vocabulary of the statements *)

(** The three requests of the program, as [session_get] records them. *)
Definition identity_request (self : MattermostEmojiExtractor) : request :=
  {| req_url := server_url self +:+ "/api/v4/users/me"; req_params := [];
     req_stream := false; req_headers := headers self |}.

Definition page_request (self : MattermostEmojiExtractor) (page per_page : Z) : request :=
  {| req_url := server_url self +:+ "/api/v4/emoji";
     req_params := [("page", PInt page); ("per_page", PInt per_page); ("sort", PStr "name")];
     req_stream := false; req_headers := headers self |}.

Definition image_request (env : Env) (self : MattermostEmojiExtractor) (emoji_id : pyval)
    : request :=
  {| req_url := server_url self +:+ "/api/v4/emoji/" +:+ py_format env emoji_id +:+ "/image";
     req_params := []; req_stream := true; req_headers := headers self |}.

(** [needle] occurs in [hay]. *)
Definition substring (needle hay : string) : Prop :=
  exists before after, hay = before +:+ needle +:+ after.

(** The world before the program starts. *)
Definition empty_world : world :=
  {| w_requests := []; w_stdout := []; w_dirs := ∅; w_files := ∅; w_sleeps := 0 |}.

(** The server answers a request for [page], of 200 records, with status
    200 and the JSON array [l], whenever it is asked. *)
Definition serves_page (env : Env) (self : MattermostEmojiExtractor) (page : nat)
    (l : list pyval) : Prop :=
  forall w, exists r,
    http_get env w (page_request self (Z.of_nat page) 200) = Responds r
    /\ status_code r = 200%Z /\ json r = inr (PList l).

(** The server holds the finite collection [coll] and serves it in pages
    of 200. *)
Definition serves_collection (env : Env) (self : MattermostEmojiExtractor)
    (coll : list pyval) : Prop :=
  forall page, serves_page env self page (take 200 (drop (200 * page) coll)).

(** The page requests for the pages [first], ..., [first + count - 1]. *)
Definition page_requests (self : MattermostEmojiExtractor) (first count : nat) : list request :=
  map (fun i => page_request self (Z.of_nat i) 200) (seq first count).

(** The text a [print] of [s] adds to the output. *)
Definition line (s : string) : string := s +:+ nl.

(** The body of a response: its chunks, one after the other. *)
Definition body (r : response) : string :=
  fold_right String.append "" (iter_content r).

(** The path [download_emoji_image] writes to. *)
Definition image_path (env : Env) (download_dir : string) (emoji_name : pyval)
    (r : response) : string :=
  os_path_join download_dir
    (py_format env emoji_name +:+ extension_of (default "" (content_type r))).

(** A record [extract_emojis] can download: [emoji['id']] and
    [emoji['name']] both succeed. *)
Definition has_id_name (emoji : pyval) : Prop :=
  exists id name, py_getitem emoji "id" = inr id /\ py_getitem emoji "name" = inr name.

(** [emoji['id']] of such a record. *)
Definition emoji_id_of (emoji : pyval) : pyval :=
  match py_getitem emoji "id" with
  | inr id => id
  | inl _ => PNone
  end.

(** The image requests for the records [emojis], in order. *)
Definition image_requests (env : Env) (self : MattermostEmojiExtractor)
    (emojis : list pyval) : list request :=
  map (fun emoji => image_request env self (emoji_id_of emoji)) emojis.

(** From [w] to [w'] nothing happened on disk, and no image was
    requested: every new request is a plain (not streamed) one. *)
Definition listing_only (w w' : world) : Prop :=
  w_files w' = w_files w /\ w_dirs w' = w_dirs w
  /\ exists reqs, w_requests w' = (w_requests w ++ reqs)%list
                 /\ Forall (fun r => req_stream r = false) reqs.

(** From [w] to [w'] the identity request was issued and nothing else
    happened to requests, directories and files. *)
Definition only_identity_request (self : MattermostEmojiExtractor) (w w' : world) : Prop :=
  w_requests w' = (w_requests w ++ [identity_request self])%list
  /\ w_dirs w' = w_dirs w /\ w_files w' = w_files w.

(** The path of the metadata file. *)
Definition metadata_path (download_dir : string) : string :=
  os_path_join download_dir "emoji_metadata.json".

(** The world after [extract_emojis] has written the metadata of
    [emojis] and announced the downloads. *)
Definition persisted (env : Env) (download_dir : string) (emojis : list pyval)
    (w : world) : world :=
  add_stdout (line (nl +:+ "Downloading emoji images to " +:+ download_dir +:+ "..."))
    (add_stdout (line ("✓ Saved emoji metadata to " +:+ metadata_path download_dir))
       (set_files (<[metadata_path download_dir := json_dumps env (PList emojis)]> (w_files w))
          w)).

(** The world after the two summary lines of [extract_emojis]. *)
Definition reported (env : Env) (download_dir : string) (success_count total : nat)
    (w : world) : world :=
  add_stdout (line ("✓ Files saved to: " +:+ os_path_abspath env download_dir))
    (add_stdout (line (nl +:+ "✓ Downloaded " +:+ str_of_nat success_count +:+ "/"
                       +:+ str_of_nat total +:+ " emojis successfully!")) w).

(** The world after [Path(download_dir).mkdir(exist_ok=True)]. *)
Definition made_dir (download_dir : string) (w : world) : world :=
  set_dirs ({[download_dir]} ∪ w_dirs w) w.

(** The request fails: a transport failure, or a status other than 200. *)
Definition request_fails (env : Env) (w : world) (req : request) : Prop :=
  (exists msg, http_get env w req = Fails msg)
  \/ (exists r, http_get env w req = Responds r /\ status_code r <> 200%Z).

(** What [main] prints when the configuration is the placeholder one. *)
Definition instructions : list string :=
  [ "Mattermost Custom Emoji Extractor";
    "========================================";
    "⚠️  Please update the configuration variables:";
    "   - MATTERMOST_URL: Your Mattermost server URL";
    "   - ACCESS_TOKEN: Your personal access token";
    nl +:+ "To get a personal access token:";
    "1. Go to Account Settings → Security → Personal Access Tokens";
    "2. Create a new token with appropriate permissions";
    "3. Copy the token and update the ACCESS_TOKEN variable" ].

(** The world after the lines [lines] were printed. *)
Definition printed (lines : list string) (w : world) : world :=
  fold_left (fun w s => add_stdout (line s) w) lines w.

(** The last character of a string. *)
Fixpoint last_char (s : string) : option ascii :=
  match s with
  | EmptyString => None
  | String c EmptyString => Some c
  | String _ t => last_char t
  end.

(** ** Servers used to run the program *)

(** A 200 response whose JSON body decodes to [v]. *)
Definition ok_json (v : pyval) : response :=
  {| status_code := 200; text := ""; json := inr v; content_type := None;
     iter_content := []; iter_error := None |}.

(** A response with status [status] and text [t] whose body is not JSON. *)
Definition plain_response (status : Z) (t : string) : response :=
  {| status_code := status; text := t; json := inl "Expecting value: line 1 column 1 (char 0)";
     content_type := None; iter_content := []; iter_error := None |}.

(** A 200 image response. *)
Definition image_response (ct : string) (chunks : list string) : response :=
  {| status_code := 200; text := ""; json := inl "Expecting value: line 1 column 1 (char 0)";
     content_type := Some ct; iter_content := chunks; iter_error := None |}.

Definition emoji_record (id name : string) : pyval :=
  PDict [("id", PStr id); ("name", PStr name)].

(** The page index of a listing request. *)
Definition requested_page (req : request) : option nat :=
  match req_params req with
  | ("page", PInt p) :: _ => Some (Z.to_nat p)
  | _ => None
  end.

(** An environment whose server answers by [answer] and whose operating
    system refuses nothing. *)
Definition env_of (answer : world -> request -> http_outcome) : Env :=
  {| http_get := answer;
     mkdir_error := fun _ _ => None;
     open_error := fun _ _ => None;
     json_dumps := fun _ => "[]";
     py_repr := fun _ => "[]";
     os_path_abspath := fun p => "/home/user/" +:+ p |}.

(** The server that holds [coll]: it accepts every identity check,
    serves the listing in pages of 200 and has no images. *)
Definition collection_server (coll : list pyval) : Env :=
  env_of (fun _ req =>
    match requested_page req with
    | Some page => Responds (ok_json (PList (take 200 (drop (200 * page) coll))))
    | None =>
        if req_stream req then Responds (plain_response 404 "")
        else Responds (ok_json (PDict [("username", PStr "bot")]))
    end).

(** The server whose listing has the pages [pages], in this order, and
    nothing after them. *)
Definition paged_server (pages : list (list pyval)) : Env :=
  env_of (fun _ req =>
    match requested_page req with
    | Some page => Responds (ok_json (PList (default [] (pages !! page))))
    | None => Responds (ok_json (PDict [("username", PStr "bot")]))
    end).

Definition example_extractor : MattermostEmojiExtractor :=
  __init__ "https://chat.example.org/" "token".

(** The server whose listing has the full pages [pages] and answers
    every later page request with status 500. *)
Definition failing_after (pages : list (list pyval)) : Env :=
  env_of (fun _ req =>
    match requested_page req with
    | Some page =>
        match pages !! page with
        | Some l => Responds (ok_json (PList l))
        | None => Responds (plain_response 500 "Internal Server Error")
        end
    | None =>
        if req_stream req then Responds (image_response "image/png" ["PNG"])
        else Responds (ok_json (PDict [("username", PStr "bot")]))
    end).

(** The server of the end-to-end scenario: two emojis, [foo] served as a
    PNG and [bar] as a GIF. *)
Definition two_emoji_server : Env :=
  env_of (fun _ req =>
    match requested_page req with
    | Some O => Responds (ok_json (PList [emoji_record "1" "foo"; emoji_record "2" "bar"]))
    | Some _ => Responds (ok_json (PList []))
    | None =>
        if negb (req_stream req) then Responds (ok_json (PDict [("username", PStr "bot")]))
        else if str_in "/emoji/1/" (req_url req)
             then Responds (image_response "image/png" ["PNG"; "DATA"])
             else Responds (image_response "image/gif" ["GIF"])
    end).

(** The same server on a disk where no file can be opened for writing. *)
Definition read_only (env : Env) : Env :=
  {| http_get := http_get env;
     mkdir_error := mkdir_error env;
     open_error := fun _ path => Some ("[Errno 13] Permission denied: '" +:+ path +:+ "'");
     json_dumps := json_dumps env;
     py_repr := py_repr env;
     os_path_abspath := os_path_abspath env |}.



(** ** Vocabulary of the further properties *)

(** A request of this extractor: it carries the headers the session was
    given in [__init__] and its URL lies under the API root of the
    server. *)
Definition own_request (self : MattermostEmojiExtractor) (r : request) : Prop :=
  req_headers r = headers self
  /\ exists rest, req_url r = server_url self +:+ "/api/v4/" +:+ rest.

(** From [w] to [w'] requests were only added, and each satisfies [P]. *)
Definition issued (P : request -> Prop) (w w' : world) : Prop :=
  exists reqs, w_requests w' = (w_requests w ++ reqs)%list /\ Forall P reqs.

(** From [w] to [w'] output was only added, no directory but
    [download_dir] appeared and none disappeared, no file disappeared,
    and the sleeps did not decrease. *)
Definition footprint (download_dir : string) (w w' : world) : Prop :=
  (exists out, w_stdout w' = (w_stdout w ++ out)%list)
  /\ w_dirs w ⊆ w_dirs w'
  /\ w_dirs w' ⊆ {[download_dir]} ∪ w_dirs w
  /\ (forall path, is_Some (w_files w !! path) -> is_Some (w_files w' !! path))
  /\ w_sleeps w <= w_sleeps w'.

(** Every image request is answered with 200 and a stream that
    completes, and the image file can be opened. *)
Definition images_ok (env : Env) (self : MattermostEmojiExtractor) (download_dir : string)
    : Prop :=
  forall w emoji_id emoji_name, exists r,
    http_get env w (image_request env self emoji_id) = Responds r
    /\ status_code r = 200%Z /\ iter_error r = None
    /\ open_error env (record_request (image_request env self emoji_id) w)
         (image_path env download_dir emoji_name r) = None.

(** Every image request fails. *)
Definition images_fail (env : Env) (self : MattermostEmojiExtractor) : Prop :=
  forall w emoji_id, request_fails env w (image_request env self emoji_id).

(** [emoji['id']] or, after it, [emoji['name']] raises [e]. *)
Definition lacks_id_or_name (emoji : pyval) (e : exn) : Prop :=
  py_getitem emoji "id" = inl e
  \/ (exists id, py_getitem emoji "id" = inr id /\ py_getitem emoji "name" = inl e).

(** The server that answers every listing request with status 200 and
    the JSON body [v], and accepts every identity check. *)
Definition body_server (v : pyval) : Env :=
  env_of (fun _ req =>
    match requested_page req with
    | Some _ => Responds (ok_json v)
    | None => Responds (ok_json (PDict [("username", PStr "bot")]))
    end).

(** ** Strings *)

Lemma append_cons (c : ascii) (s t : string) : String c s +:+ t = String c (s +:+ t).
Proof. reflexivity. Qed.

Lemma append_empty_r (s : string) : s +:+ "" = s.
Proof.
  induction s as [|c s IH]; [reflexivity|].
  rewrite append_cons, IH. reflexivity.
Qed.

Lemma append_assoc (a b c : string) : (a +:+ b) +:+ c = a +:+ b +:+ c.
Proof.
  induction a as [|x a IH]; [reflexivity|].
  rewrite !append_cons, IH. reflexivity.
Qed.

Lemma startswith_spec (p s : string) :
  startswith p s = true <-> exists rest, s = p +:+ rest.
Proof.
  revert s. induction p as [|a p IH]; intros s; simpl.
  - split; [intros _; exists s; reflexivity | reflexivity].
  - destruct s as [|b s].
    + split; [discriminate | intros [rest H]; discriminate].
    + rewrite andb_true_iff, Ascii.eqb_eq, IH. split.
      * intros [-> [rest ->]]. exists rest. reflexivity.
      * intros [rest H]. injection H as -> ->. split; [reflexivity | exists rest; reflexivity].
Qed.

Lemma str_in_spec (needle hay : string) :
  str_in needle hay = true <-> substring needle hay.
Proof.
  unfold substring. induction hay as [|c t IH]; simpl.
  - rewrite orb_false_r, startswith_spec. split.
    + intros [rest H]. exists "", rest. exact H.
    + intros [[|x before] [after H]]; [exists after; exact H | discriminate].
  - rewrite orb_true_iff, startswith_spec, IH. split.
    + intros [[rest H] | [before [after H]]].
      * exists "", rest. exact H.
      * exists (String c before), after. simpl. rewrite H. reflexivity.
    + intros [[|x before] [after H]].
      * left. exists after. exact H.
      * right. simpl in H. injection H as _ H. exists before, after. exact H.
Qed.

Lemma str_in_false (needle hay : string) :
  str_in needle hay = false <-> ~ substring needle hay.
Proof.
  rewrite <- str_in_spec. destruct (str_in needle hay); split; congruence.
Qed.

Lemma append_not_empty (a b : string) : b <> "" -> a +:+ b <> "".
Proof.
  intros Hb H. destruct a as [|c a]; [exact (Hb H) | discriminate H].
Qed.

Lemma last_char_append (a b : string) : b <> "" -> last_char (a +:+ b) = last_char b.
Proof.
  intros Hb. induction a as [|c a IH]; [reflexivity|].
  rewrite append_cons. simpl.
  destruct (a +:+ b) eqn:E; [|exact IH].
  exfalso. exact (append_not_empty a b Hb E).
Qed.

Lemma last_char_os_path_join (a b : string) :
  b <> "" -> last_char (os_path_join a b) = last_char b.
Proof.
  intros Hb. unfold os_path_join.
  destruct (startswith "/" b); [reflexivity|].
  destruct (String.eqb a "" || endswith_slash a)%bool.
  - apply last_char_append, Hb.
  - rewrite last_char_append by (apply append_not_empty, Hb).
    apply (last_char_append "/"), Hb.
Qed.

Lemma last_char_extension_of (name ct : string) :
  last_char (name +:+ extension_of ct) <> Some "n"%char /\ name +:+ extension_of ct <> "".
Proof.
  unfold extension_of.
  destruct (str_in "png" ct); [|destruct (str_in "gif" ct);
    [|destruct (str_in "jpeg" ct || str_in "jpg" ct)%bool]];
    (split; [rewrite last_char_append by discriminate; discriminate
            | apply append_not_empty; discriminate]).
Qed.

Lemma image_path_last_char (env : Env) (download_dir : string) (emoji_name : pyval)
    (r : response) :
  last_char (image_path env download_dir emoji_name r) <> Some "n"%char.
Proof.
  unfold image_path.
  destruct (last_char_extension_of (py_format env emoji_name) (default "" (content_type r)))
    as [Hlast Hne].
  rewrite last_char_os_path_join by exact Hne. exact Hlast.
Qed.

Lemma metadata_path_last_char (download_dir : string) :
  last_char (metadata_path download_dir) = Some "n"%char.
Proof.
  unfold metadata_path. rewrite last_char_os_path_join by discriminate. reflexivity.
Qed.

(** ** Running actions *)

Lemma run_bind_ret {A B : Type} (m : action A) (k : A -> action B) (w w' : world) (a : A) :
  m w = (Ret a, w') -> (m ≫= k) w = k a w'.
Proof. intros H. unfold mbind, action_bind. rewrite H. reflexivity. Qed.

Lemma run_bind_raise {A B : Type} (m : action A) (k : A -> action B) (w w' : world) (e : exn) :
  m w = (Raise e, w') -> (m ≫= k) w = (Raise e, w').
Proof. intros H. unfold mbind, action_bind. rewrite H. reflexivity. Qed.

Lemma run_bind_out_of_fuel {A B : Type} (m : action A) (k : A -> action B) (w w' : world) :
  m w = (OutOfFuel, w') -> (m ≫= k) w = (OutOfFuel, w').
Proof. intros H. unfold mbind, action_bind. rewrite H. reflexivity. Qed.

(** Unfold the monad on a goal about a run. *)
Ltac run :=
  unfold mbind, action_bind, mret, action_ret, raise, lift, print, print_end,
    time_sleep, line; simpl.

Ltac run_in H :=
  unfold mbind, action_bind, mret, action_ret, raise, lift, print, print_end,
    time_sleep, line in H; simpl in H.

Section Runs.

Context (env : Env) (self : MattermostEmojiExtractor).

(** *** [get_custom_emojis] *)

Lemma get_custom_emojis_run (page per_page : Z) (w : world) :
  get_custom_emojis env self page per_page w =
  let w1 := record_request (page_request self page per_page) w in
  match http_get env w (page_request self page per_page) with
  | Fails msg => (Ret (PList []), add_stdout (line ("Error fetching emojis: " +:+ msg)) w1)
  | Responds r =>
      if (status_code r =? 200)%Z then
        match json r with
        | inl msg => (Ret (PList []), add_stdout (line ("Error fetching emojis: " +:+ msg)) w1)
        | inr v => (Ret v, w1)
        end
      else (Ret (PList []),
            add_stdout (line ("Error fetching emojis: " +:+ str_of_Z (status_code r)
                              +:+ " - " +:+ text r)) w1)
  end.
Proof.
  unfold get_custom_emojis, try_except, session_get. run.
  fold (page_request self page per_page).
  destruct (http_get env w (page_request self page per_page)) as [msg|r]; simpl; [reflexivity|].
  destruct (status_code r =? 200)%Z; simpl; [|reflexivity].
  unfold response_json. destruct (json r); reflexivity.
Qed.

Lemma get_custom_emojis_ok (page per_page : Z) (w : world) (r : response) (v : pyval) :
  http_get env w (page_request self page per_page) = Responds r ->
  status_code r = 200%Z -> json r = inr v ->
  get_custom_emojis env self page per_page w
  = (Ret v, record_request (page_request self page per_page) w).
Proof.
  intros H Hs Hj. rewrite get_custom_emojis_run, H, Hs, Hj. reflexivity.
Qed.

(** *** The loop of [get_all_custom_emojis] *)

Lemma get_all_loop_list (fuel : nat) (page per_page : Z) (acc l : list pyval) (w w1 : world) :
  get_custom_emojis env self page per_page w = (Ret (PList l), w1) ->
  get_all_loop env (S fuel) self page per_page acc w =
  match l with
  | [] => (Ret acc, w1)
  | _ :: _ =>
      let w2 := add_stdout (line ("Retrieved " +:+ str_of_nat (length l)
                                  +:+ " emojis from page " +:+ str_of_Z (page + 1))) w1 in
      if (Z.of_nat (length l) <? per_page)%Z then (Ret (acc ++ l)%list, w2)
      else get_all_loop env fuel self (page + 1) per_page (acc ++ l)%list (add_sleep w2)
  end.
Proof.
  intros H. simpl. rewrite (run_bind_ret _ _ _ _ _ H).
  destruct l as [|x l]; [reflexivity|]. run.
  destruct (Z.of_nat (S (length l)) <? per_page)%Z; reflexivity.
Qed.

Lemma get_all_loop_full (fuel : nat) (page : Z) (acc l : list pyval) (w w1 : world) :
  get_custom_emojis env self page 200 w = (Ret (PList l), w1) ->
  length l = 200 ->
  get_all_loop env (S fuel) self page 200 acc w =
  get_all_loop env fuel self (page + 1) 200 (acc ++ l)%list
    (add_sleep (add_stdout (line ("Retrieved " +:+ str_of_nat (length l)
                                  +:+ " emojis from page " +:+ str_of_Z (page + 1))) w1)).
Proof.
  intros H Hlen. rewrite (get_all_loop_list _ _ _ _ _ _ _ H).
  destruct l as [|x l]; [discriminate|].
  rewrite Hlen. reflexivity.
Qed.

(** A page shorter than 200 ends the loop: no request follows it. *)
Lemma get_all_loop_short (fuel : nat) (page : Z) (acc l : list pyval) (w w1 : world) :
  get_custom_emojis env self page 200 w = (Ret (PList l), w1) ->
  length l < 200 ->
  exists w2,
    get_all_loop env (S fuel) self page 200 acc w = (Ret (acc ++ l)%list, w2)
    /\ w_requests w2 = w_requests w1 /\ w_files w2 = w_files w1 /\ w_dirs w2 = w_dirs w1.
Proof.
  intros H Hlen. rewrite (get_all_loop_list _ _ _ _ _ _ _ H).
  destruct l as [|x l].
  - exists w1. rewrite app_nil_r. auto.
  - cbv zeta.
    replace (Z.of_nat (length (x :: l)) <? 200)%Z with true by (symmetry; apply Z.ltb_lt; lia).
    eexists. split; [reflexivity|]. auto.
Qed.

(** A run of full pages: [j] iterations, [j] requests, and the loop goes
    on at page [p + j] with the [j] pages appended. *)
Lemma get_all_loop_full_pages (pages : nat -> list pyval) (j : nat) :
  forall (p : nat) (acc : list pyval) (fuel : nat) (w : world),
  (forall i, p <= i < p + j -> serves_page env self i (pages i) /\ length (pages i) = 200) ->
  exists w',
    get_all_loop env (j + fuel) self (Z.of_nat p) 200 acc w
    = get_all_loop env fuel self (Z.of_nat (p + j)) 200
        (acc ++ concat (map pages (seq p j)))%list w'
    /\ w_requests w' = (w_requests w ++ page_requests self p j)%list
    /\ w_files w' = w_files w /\ w_dirs w' = w_dirs w.
Proof.
  induction j as [|j IH]; intros p acc fuel w Hserve.
  - exists w. unfold page_requests. simpl.
    rewrite !app_nil_r, Nat.add_0_r. auto.
  - destruct (Hserve p ltac:(lia)) as [Hp Hlen].
    destruct (Hp w) as (r & Hr & Hs & Hj).
    pose proof (get_custom_emojis_ok _ _ _ _ _ Hr Hs Hj) as Hget.
    change (S j + fuel) with (S (j + fuel)).
    rewrite (get_all_loop_full _ _ _ _ _ _ Hget Hlen).
    replace (Z.of_nat p + 1)%Z with (Z.of_nat (S p)) by lia.
    match goal with
    | |- context [get_all_loop _ _ _ _ _ _ ?w0] =>
        destruct (IH (S p) (acc ++ pages p)%list fuel w0) as (w' & Hrun & Hreq & Hf & Hd)
    end.
    { intros i Hi. apply Hserve. lia. }
    exists w'. rewrite Hrun. split; [|split; [|split]].
    + replace (S p + j) with (p + S j) by lia.
      simpl. rewrite <- app_assoc. reflexivity.
    + rewrite Hreq. unfold page_requests. simpl. rewrite <- app_assoc. reflexivity.
    + rewrite Hf. reflexivity.
    + rewrite Hd. reflexivity.
Qed.

(** *** [test_connection] *)

Lemma test_connection_run (w : world) :
  test_connection env self w =
  let w1 := record_request (identity_request self) w in
  match http_get env w (identity_request self) with
  | Fails msg => (Ret false, add_stdout (line ("✗ Connection error: " +:+ msg)) w1)
  | Responds r =>
      if (status_code r =? 200)%Z then
        match json r with
        | inl msg => (Ret false, add_stdout (line ("✗ Connection error: " +:+ msg)) w1)
        | inr user_data =>
            match py_get user_data "username" (PStr "Unknown") with
            | inl e => (Ret false, add_stdout (line ("✗ Connection error: " +:+ exn_str e)) w1)
            | inr username =>
                (Ret true, add_stdout (line ("✓ Connected successfully as: "
                                             +:+ py_format env username)) w1)
            end
        end
      else (Ret false, add_stdout (line ("✗ Connection failed: " +:+ str_of_Z (status_code r)
                                         +:+ " - " +:+ text r)) w1)
  end.
Proof.
  unfold test_connection, try_except, session_get. run.
  fold (identity_request self).
  destruct (http_get env w (identity_request self)) as [msg|r]; simpl; [reflexivity|].
  destruct (status_code r =? 200)%Z; simpl; [|reflexivity].
  unfold response_json. destruct (json r) as [msg|user_data]; simpl; [reflexivity|].
  destruct (py_get user_data "username" (PStr "Unknown")); reflexivity.
Qed.

(** *** Writing a file *)

Lemma set_files_same (w : world) : set_files (w_files w) w = w.
Proof. destruct w; reflexivity. Qed.

Lemma write_chunks_run (path : string) (chunks : list string) (w : world) (s : string) :
  w_files w !! path = Some s ->
  write_chunks path chunks w
  = (Ret tt, set_files (<[path := s +:+ fold_right String.append "" chunks]> (w_files w)) w).
Proof.
  revert w s. induction chunks as [|chunk rest IH]; intros w s H; simpl.
  - rewrite append_empty_r.
    rewrite insert_id by exact H. rewrite set_files_same. reflexivity.
  - run. unfold file_write. rewrite H. simpl.
    rewrite (IH _ (s +:+ chunk)) by (simpl; apply lookup_insert_eq).
    simpl. rewrite insert_insert_eq.
    rewrite append_assoc. reflexivity.
Qed.

(** *** [download_emoji_image] *)

Lemma download_emoji_image_run (emoji_id emoji_name : pyval) (download_dir : string)
    (w : world) :
  download_emoji_image env self emoji_id emoji_name download_dir w =
  let w1 := record_request (image_request env self emoji_id) w in
  let error e := line ("Error downloading " +:+ py_format env emoji_name +:+ ": " +:+ e) in
  match http_get env w (image_request env self emoji_id) with
  | Fails msg => (Ret false, add_stdout (error msg) w1)
  | Responds r =>
      if (status_code r =? 200)%Z then
        let filepath := image_path env download_dir emoji_name r in
        match open_error env w1 filepath with
        | Some msg => (Ret false, add_stdout (error msg) w1)
        | None =>
            let w2 := set_files (<[filepath := body r]> (w_files w1)) w1 in
            match iter_error r with
            | Some msg => (Ret false, add_stdout (error msg) w2)
            | None => (Ret true, w2)
            end
        end
      else (Ret false, add_stdout (line ("Failed to download " +:+ py_format env emoji_name
                                         +:+ ": " +:+ str_of_Z (status_code r))) w1)
  end.
Proof.
  unfold download_emoji_image, try_except, session_get. run.
  fold (image_request env self emoji_id).
  destruct (http_get env w (image_request env self emoji_id)) as [msg|r]; simpl; [reflexivity|].
  destruct (status_code r =? 200)%Z; simpl; [|reflexivity].
  fold (image_path env download_dir emoji_name r).
  unfold open_write.
  destruct (open_error env _ (image_path env download_dir emoji_name r)) as [msg|]; simpl;
    [reflexivity|].
  rewrite (write_chunks_run _ _ _ "") by (simpl; apply lookup_insert_eq).
  simpl. rewrite insert_insert_eq. fold (body r).
  destruct (iter_error r); reflexivity.
Qed.

End Runs.

(** ** Listing *)

Section Listing.

Context (env : Env) (self : MattermostEmojiExtractor).

Lemma get_all_custom_emojis_run (fuel : nat) (w w' : world) (all_emojis : list pyval) :
  get_all_loop env fuel self 0 200 [] (add_stdout (line "Fetching custom emojis...") w)
  = (Ret all_emojis, w') ->
  get_all_custom_emojis env fuel self w
  = (Ret all_emojis,
     add_stdout (line ("✓ Total custom emojis found: " +:+ str_of_nat (length all_emojis))) w').
Proof.
  intros H. unfold get_all_custom_emojis. run.
  change (add_stdout ("Fetching custom emojis..." +:+ nl) w)
    with (add_stdout (line "Fetching custom emojis...") w).
  rewrite H. reflexivity.
Qed.

Lemma concat_pages (coll : list pyval) (j : nat) :
  concat (map (fun i => take 200 (drop (200 * i) coll)) (seq 0 j)) = take (200 * j) coll.
Proof.
  induction j as [|j IH].
  - rewrite Nat.mul_0_r. reflexivity.
  - rewrite seq_S, map_app, concat_app, IH. simpl.
    rewrite app_nil_r, take_take_drop. f_equal. lia.
Qed.

(** C1: for a server whose listing yields pages of sizes 200, 200 and 73,
    [get_all_custom_emojis] returns the 473 records of the three pages in
    order, and issues exactly three requests, for the pages 0, 1 and 2
    with [per_page] 200. *)
Theorem list_all_three_pages (p0 p1 p2 : list pyval) (fuel : nat) (w : world) :
  serves_page env self 0 p0 -> serves_page env self 1 p1 -> serves_page env self 2 p2 ->
  length p0 = 200 -> length p1 = 200 -> length p2 = 73 ->
  3 <= fuel ->
  exists w',
    get_all_custom_emojis env fuel self w = (Ret (p0 ++ p1 ++ p2)%list, w')
    /\ length (p0 ++ p1 ++ p2)%list = 473
    /\ w_requests w' = (w_requests w ++ [page_request self 0 200; page_request self 1 200;
                                          page_request self 2 200])%list.
Proof.
  intros H0 H1 H2 L0 L1 L2 Hfuel.
  destruct fuel as [|[|[|fuel]]]; try lia.
  set (pages := fun i : nat => match i with 0 => p0 | _ => p1 end).
  destruct (get_all_loop_full_pages env self pages 2 0 [] (S fuel)
              (add_stdout (line "Fetching custom emojis...") w))
    as (w1 & Hrun & Hreq & _).
  { intros i Hi. assert (i = 0 \/ i = 1) as [-> | ->] by lia; simpl; auto. }
  destruct (H2 w1) as (r & Hr & Hs & Hj).
  destruct (get_all_loop_short env self fuel 2 (p0 ++ p1)%list p2 w1 _
              (get_custom_emojis_ok env self _ _ _ _ _ Hr Hs Hj) ltac:(lia))
    as (w2 & Hlast & Hreq2 & _).
  eexists. split; [|split].
  - apply get_all_custom_emojis_run.
    change (Z.of_nat 0) with 0%Z in Hrun.
    change (S (S (S fuel))) with (2 + S fuel). rewrite Hrun.
    change (Z.of_nat (0 + 2)) with 2%Z.
    change ([] ++ concat (map pages (seq 0 2)))%list with (p0 ++ p1 ++ [])%list.
    rewrite app_nil_r, Hlast, <- app_assoc. reflexivity.
  - rewrite !length_app. lia.
  - simpl. rewrite Hreq2. simpl. rewrite Hreq. simpl.
    rewrite <- app_assoc. reflexivity.
Qed.

(** C2: the loop of [get_all_custom_emojis] ends.  Against a server that
    holds a finite collection it returns after one request more than the
    number of records divided by 200, with the whole collection.  Against
    any server, a page of fewer than 200 records (199, or none) is the
    last request, whatever the server would have answered next. *)
Theorem list_all_terminates :
  (forall (coll : list pyval) (fuel : nat) (w : world),
     serves_collection env self coll ->
     length coll / 200 < fuel ->
     exists w',
       get_all_custom_emojis env fuel self w = (Ret coll, w')
       /\ w_requests w'
          = (w_requests w ++ page_requests self 0 (length coll / 200 + 1))%list)
  /\
  (forall (fuel : nat) (page : Z) (acc l : list pyval) (w : world) (r : response),
     http_get env w (page_request self page 200) = Responds r ->
     status_code r = 200%Z -> json r = inr (PList l) ->
     length l < 200 ->
     exists w',
       get_all_loop env (S fuel) self page 200 acc w = (Ret (acc ++ l)%list, w')
       /\ w_requests w' = (w_requests w ++ [page_request self page 200])%list).
Proof.
  split.
  - intros coll fuel w Hserve Hfuel.
    set (q := length coll / 200) in *.
    assert (Hq1 : 200 * q <= length coll) by apply Nat.Div0.mul_div_le.
    assert (Hq2 : length coll < 200 * S q) by (apply Nat.mul_succ_div_gt; lia).
    set (pages := fun i => take 200 (drop (200 * i) coll)).
    destruct (get_all_loop_full_pages env self pages q 0 [] (fuel - q)
                (add_stdout (line "Fetching custom emojis...") w))
      as (w1 & Hrun & Hreq & _).
    { intros i Hi. split; [apply Hserve|].
      unfold pages. rewrite length_take, length_drop. lia. }
    destruct (Hserve q w1) as (r & Hr & Hs & Hj).
    destruct (fuel - q) as [|fuel'] eqn:Hf; [lia|].
    destruct (get_all_loop_short env self fuel' (Z.of_nat q) (take (200 * q) coll) _ w1 _
                (get_custom_emojis_ok env self _ _ _ _ _ Hr Hs Hj))
      as (w2 & Hlast & Hreq2 & _).
    { rewrite length_take, length_drop. lia. }
    eexists. split.
    + apply get_all_custom_emojis_run.
      change (Z.of_nat 0) with 0%Z in Hrun.
      replace fuel with (q + S fuel') by lia. rewrite Hrun.
      rewrite Nat.add_0_l, app_nil_l.
      unfold pages. rewrite concat_pages, Hlast, take_take_drop.
      rewrite take_ge by lia. reflexivity.
    + simpl. rewrite Hreq2. simpl. rewrite Hreq.
      unfold page_requests. replace (q + 1) with (S q) by lia.
      rewrite seq_S, map_app, <- app_assoc. reflexivity.
  - intros fuel page acc l w r Hr Hs Hj Hlen.
    destruct (get_all_loop_short env self fuel page acc l w _
                (get_custom_emojis_ok env self _ _ _ _ _ Hr Hs Hj) Hlen)
      as (w2 & Hrun & Hreq & _).
    exists w2. split; [exact Hrun|]. rewrite Hreq. reflexivity.
Qed.

End Listing.

Lemma paged_server_serves (pages : list (list pyval)) (self : MattermostEmojiExtractor)
    (page : nat) (l : list pyval) :
  pages !! page = Some l -> serves_page (paged_server pages) self page l.
Proof.
  intros H w. eexists. split; [reflexivity|]. split; [reflexivity|].
  simpl. rewrite Nat2Z.id, H. reflexivity.
Qed.

Lemma collection_server_serves (coll : list pyval) (self : MattermostEmojiExtractor) :
  serves_collection (collection_server coll) self coll.
Proof.
  intros page w. eexists. split; [reflexivity|]. split; [reflexivity|].
  simpl. rewrite Nat2Z.id. reflexivity.
Qed.

(** Three pages of 200 apples, 200 mangos and 73 zebras. *)
Lemma list_all_three_pages_witness :
  let p0 := repeat (emoji_record "a" "apple") 200 in
  let p1 := repeat (emoji_record "m" "mango") 200 in
  let p2 := repeat (emoji_record "z" "zebra") 73 in
  exists w',
    get_all_custom_emojis (paged_server [p0; p1; p2]) 3 example_extractor empty_world
    = (Ret (p0 ++ p1 ++ p2)%list, w')
    /\ length (p0 ++ p1 ++ p2)%list = 473
    /\ w_requests w' = [page_request example_extractor 0 200;
                        page_request example_extractor 1 200;
                        page_request example_extractor 2 200].
Proof.
  intros p0 p1 p2.
  apply (list_all_three_pages (paged_server [p0; p1; p2]) example_extractor p0 p1 p2 3
           empty_world).
  - apply paged_server_serves. reflexivity.
  - apply paged_server_serves. reflexivity.
  - apply paged_server_serves. reflexivity.
  - reflexivity.
  - reflexivity.
  - reflexivity.
  - lia.
Defined.

(** A collection of 450 records takes three requests; a page of 199
    records ends the loop although the server has a second page. *)
Lemma list_all_terminates_witness :
  let coll := repeat (emoji_record "a" "apple") 450 in
  let short := repeat (emoji_record "b" "bee") 199 in
  (exists w',
     get_all_custom_emojis (collection_server coll) 3 example_extractor empty_world
     = (Ret coll, w')
     /\ w_requests w' = page_requests example_extractor 0 3)
  /\
  (exists w',
     get_all_loop (paged_server [short; short]) 1 example_extractor 0 200 [] empty_world
     = (Ret short, w')
     /\ w_requests w' = [page_request example_extractor 0 200]).
Proof.
  intros coll short. split.
  - apply (proj1 (list_all_terminates (collection_server coll) example_extractor) coll 3
             empty_world).
    + apply collection_server_serves.
    + vm_compute. lia.
  - apply (proj2 (list_all_terminates (paged_server [short; short]) example_extractor)
             0 0%Z [] short empty_world (ok_json (PList short))).
    + reflexivity.
    + reflexivity.
    + reflexivity.
    + vm_compute. lia.
Defined.

(** ** Connecting *)

Section Connect.

Context (env : Env) (self : MattermostEmojiExtractor).

Lemma path_mkdir_ok (download_dir : string) (w : world) :
  mkdir_error env w download_dir = None ->
  path_mkdir env download_dir w = (Ret tt, made_dir download_dir w).
Proof. intros H. unfold path_mkdir. rewrite H. reflexivity. Qed.

Lemma path_mkdir_raises (download_dir : string) (w : world) (msg : string) :
  mkdir_error env w download_dir = Some msg ->
  path_mkdir env download_dir w = (Raise (OSError msg), w).
Proof. intros H. unfold path_mkdir. rewrite H. reflexivity. Qed.

(** [extract_emojis] returns at once when the connection test fails. *)
Lemma extract_emojis_not_connected (fuel : nat) (download_dir : string) (w w2 : world) :
  mkdir_error env w download_dir = None ->
  test_connection env self (made_dir download_dir w) = (Ret false, w2) ->
  extract_emojis env fuel self download_dir w = (Ret tt, w2).
Proof.
  intros Hm Hc. unfold extract_emojis.
  rewrite (run_bind_ret _ _ _ _ _ (path_mkdir_ok _ _ Hm)).
  rewrite (run_bind_ret _ _ _ _ _ Hc). reflexivity.
Qed.

(** C10: a 200 answer to the identity check whose body is not JSON makes
    [test_connection] return false: the decode error is caught by the
    handler that catches transport failures, and logged the same way. *)
Theorem test_connection_undecodable_body (w : world) (r : response) (msg : string) :
  http_get env w (identity_request self) = Responds r ->
  status_code r = 200%Z -> json r = inl msg ->
  test_connection env self w
  = (Ret false, add_stdout (line ("✗ Connection error: " +:+ msg))
                  (record_request (identity_request self) w))
  /\ (forall w0 msg0,
        http_get env w0 (identity_request self) = Fails msg0 ->
        test_connection env self w0
        = (Ret false, add_stdout (line ("✗ Connection error: " +:+ msg0))
                        (record_request (identity_request self) w0))).
Proof.
  intros Hr Hs Hj. split.
  - rewrite test_connection_run, Hr, Hs, Hj. reflexivity.
  - intros w0 msg0 H0. rewrite test_connection_run, H0. reflexivity.
Qed.

(** C3, as amended: when the identity check answers with a status other
    than 200, [test_connection] returns false and [extract_emojis]
    returns at once.  The identity request is the only request, no file
    is written, one line is printed; the directory has been created
    before the check. *)
Theorem extract_identity_rejected (fuel : nat) (download_dir : string) (w : world)
    (r : response) :
  mkdir_error env w download_dir = None ->
  http_get env (made_dir download_dir w) (identity_request self) = Responds r ->
  status_code r <> 200%Z ->
  let w' := add_stdout (line ("✗ Connection failed: " +:+ str_of_Z (status_code r)
                              +:+ " - " +:+ text r))
              (record_request (identity_request self) (made_dir download_dir w)) in
  test_connection env self (made_dir download_dir w) = (Ret false, w')
  /\ extract_emojis env fuel self download_dir w = (Ret tt, w')
  /\ w_requests w' = (w_requests w ++ [identity_request self])%list
  /\ w_files w' = w_files w
  /\ w_dirs w' = {[download_dir]} ∪ w_dirs w.
Proof.
  intros Hm Hr Hs w'.
  assert (Hc : test_connection env self (made_dir download_dir w) = (Ret false, w')).
  { rewrite test_connection_run, Hr.
    destruct (Z.eqb_spec (status_code r) 200); [contradiction | reflexivity]. }
  split; [exact Hc|]. split; [exact (extract_emojis_not_connected _ _ _ _ Hm Hc)|].
  repeat split.
Qed.

End Connect.

(** A server that answers the identity check with a login page, status
    200, and then refuses connections. *)
Lemma test_connection_undecodable_body_witness :
  let env := env_of (fun w _ =>
               match w_requests w with
               | [] => Responds (plain_response 200 "<html>Login</html>")
               | _ => Fails "Connection refused"
               end) in
  let w1 := record_request (identity_request example_extractor) empty_world in
  test_connection env example_extractor empty_world
  = (Ret false, add_stdout (line "✗ Connection error: Expecting value: line 1 column 1 (char 0)")
                  w1)
  /\ test_connection env example_extractor w1
     = (Ret false, add_stdout (line "✗ Connection error: Connection refused")
                     (record_request (identity_request example_extractor) w1)).
Proof.
  intros env w1.
  destruct (test_connection_undecodable_body env example_extractor empty_world
              (plain_response 200 "<html>Login</html>")
              "Expecting value: line 1 column 1 (char 0)"
              eq_refl eq_refl eq_refl) as [H1 H2].
  split; [exact H1|].
  exact (H2 w1 "Connection refused" eq_refl).
Defined.

(** A server that rejects every token with 401. *)
Lemma extract_identity_rejected_witness :
  let env := env_of (fun _ _ => Responds (plain_response 401 "Unauthorized")) in
  let w' := add_stdout (line "✗ Connection failed: 401 - Unauthorized")
              (record_request (identity_request example_extractor)
                 (made_dir "mattermost_emojis" empty_world)) in
  test_connection env example_extractor (made_dir "mattermost_emojis" empty_world)
  = (Ret false, w')
  /\ extract_emojis env 1 example_extractor "mattermost_emojis" empty_world = (Ret tt, w')
  /\ w_requests w' = [identity_request example_extractor]
  /\ w_files w' = ∅
  /\ w_dirs w' = {["mattermost_emojis"]} ∪ ∅.
Proof.
  intros env w'.
  apply (extract_identity_rejected env example_extractor 1 "mattermost_emojis" empty_world
           (plain_response 401 "Unauthorized")).
  - reflexivity.
  - reflexivity.
  - simpl. lia.
Defined.

(** C3 as stated does not hold: with a server that answers the identity
    check with 401, a run of [extract_emojis] leaves the destination
    directory behind, an effect beyond the one failed request. *)
Lemma extract_identity_rejected_makes_directory :
  let env := env_of (fun _ _ => Responds (plain_response 401 "Unauthorized")) in
  let run := extract_emojis env 1 example_extractor "mattermost_emojis" empty_world in
  fst (test_connection env example_extractor (made_dir "mattermost_emojis" empty_world))
  = Ret false
  /\ fst run = Ret tt
  /\ ~ only_identity_request example_extractor empty_world (snd run).
Proof.
  intros env run. split; [reflexivity|]. split; [reflexivity|].
  intros (_ & Hdirs & _).
  assert (Hin : "mattermost_emojis" ∈ w_dirs (snd run)) by (simpl; set_solver).
  rewrite Hdirs in Hin. simpl in Hin. set_solver.
Qed.

(** ** Downloading one image *)

Lemma extension_of_cases (ct : string) :
  (substring "png" ct -> extension_of ct = ".png")
  /\ (~ substring "png" ct -> substring "gif" ct -> extension_of ct = ".gif")
  /\ (~ substring "png" ct -> ~ substring "gif" ct ->
      substring "jpeg" ct \/ substring "jpg" ct -> extension_of ct = ".jpg")
  /\ (~ substring "png" ct -> ~ substring "gif" ct ->
      ~ substring "jpeg" ct -> ~ substring "jpg" ct -> extension_of ct = ".png").
Proof.
  unfold extension_of. repeat split.
  - intros H. apply str_in_spec in H. rewrite H. reflexivity.
  - intros Hp Hg. apply str_in_false in Hp. apply str_in_spec in Hg.
    rewrite Hp, Hg. reflexivity.
  - intros Hp Hg Hj. apply str_in_false in Hp. apply str_in_false in Hg.
    rewrite Hp, Hg.
    destruct Hj as [Hj | Hj]; apply str_in_spec in Hj; rewrite Hj;
      [reflexivity | rewrite orb_true_r; reflexivity].
  - intros Hp Hg Hj1 Hj2.
    apply str_in_false in Hp. apply str_in_false in Hg.
    apply str_in_false in Hj1. apply str_in_false in Hj2.
    rewrite Hp, Hg, Hj1, Hj2. reflexivity.
Qed.

Section Download.

Context (env : Env) (self : MattermostEmojiExtractor).

(** A 200 answer and a file that opens: the body is written under the
    name and the extension, whether or not the stream then breaks. *)
Lemma download_emoji_image_writes (emoji_id emoji_name : pyval) (download_dir : string)
    (w : world) (r : response) :
  http_get env w (image_request env self emoji_id) = Responds r ->
  status_code r = 200%Z ->
  open_error env (record_request (image_request env self emoji_id) w)
    (image_path env download_dir emoji_name r) = None ->
  exists w',
    download_emoji_image env self emoji_id emoji_name download_dir w
    = (Ret (match iter_error r with Some _ => false | None => true end), w')
    /\ w_files w' = <[image_path env download_dir emoji_name r := body r]> (w_files w)
    /\ w_requests w' = (w_requests w ++ [image_request env self emoji_id])%list.
Proof.
  intros Hr Hs Ho. rewrite download_emoji_image_run, Hr, Hs. simpl.
  rewrite Ho. destruct (iter_error r); eexists; split; reflexivity || (split; reflexivity).
Qed.

(** C9: the extension is chosen by testing for [png] first, then [gif],
    then [jpeg] or [jpg]: a content type with [png] in it gives [.png]
    whatever else it contains, one with [gif] and no [png] gives [.gif],
    and [.jpg] is chosen exactly when [jpeg] or [jpg] occurs and neither
    [png] nor [gif] does.  This is the extension of the file that
    [download_emoji_image] writes. *)
Theorem extension_of_precedence (ct : string) :
  (substring "png" ct -> extension_of ct = ".png")
  /\ (substring "gif" ct -> ~ substring "png" ct -> extension_of ct = ".gif")
  /\ (extension_of ct = ".jpg"
      <-> ~ substring "png" ct /\ ~ substring "gif" ct
          /\ (substring "jpeg" ct \/ substring "jpg" ct))
  /\ (forall (emoji_id emoji_name : pyval) (download_dir : string) (w : world) (r : response),
        http_get env w (image_request env self emoji_id) = Responds r ->
        status_code r = 200%Z ->
        content_type r = Some ct ->
        let filepath := os_path_join download_dir (py_format env emoji_name +:+ extension_of ct) in
        open_error env (record_request (image_request env self emoji_id) w) filepath = None ->
        exists b w',
          download_emoji_image env self emoji_id emoji_name download_dir w = (Ret b, w')
          /\ w_files w' = <[filepath := body r]> (w_files w)).
Proof.
  destruct (extension_of_cases ct) as (Hpng & Hgif & Hjpg & Hnone).
  split; [exact Hpng|]. split; [intros Hg Hp; exact (Hgif Hp Hg)|]. split.
  - split.
    + intros Hext. unfold extension_of in Hext.
      destruct (str_in "png" ct) eqn:Ep; [discriminate|].
      destruct (str_in "gif" ct) eqn:Eg; [discriminate|].
      destruct (str_in "jpeg" ct || str_in "jpg" ct)%bool eqn:Ej; [|discriminate].
      apply str_in_false in Ep. apply str_in_false in Eg.
      apply orb_true_iff in Ej. rewrite !str_in_spec in Ej. auto.
    + intros (Hp & Hg & Hj). exact (Hjpg Hp Hg Hj).
  - intros emoji_id emoji_name download_dir w r Hr Hs Hct filepath Ho.
    assert (Hpath : image_path env download_dir emoji_name r = filepath).
    { unfold image_path, filepath. rewrite Hct. reflexivity. }
    rewrite <- Hpath in Ho.
    destruct (download_emoji_image_writes emoji_id emoji_name download_dir w r Hr Hs Ho)
      as (w' & Hrun & Hfiles & _).
    rewrite Hpath in Hfiles. eauto.
Qed.

End Download.

(** Content types that name two formats. *)
Lemma extension_of_precedence_witness :
  extension_of "image/png, image/gif" = ".png"
  /\ extension_of "image/jpg+png" = ".png"
  /\ extension_of "image/gif, image/jpg" = ".gif"
  /\ (extension_of "image/jpeg" = ".jpg"
      <-> ~ substring "png" "image/jpeg" /\ ~ substring "gif" "image/jpeg"
          /\ (substring "jpeg" "image/jpeg" \/ substring "jpg" "image/jpeg"))
  /\ (exists b w',
        download_emoji_image
          (env_of (fun _ _ => Responds (image_response "image/png, image/gif" ["data"])))
          example_extractor (PStr "abc") (PStr "both") "out" empty_world = (Ret b, w')
        /\ w_files w' = <["out/both.png" := "data"]> ∅).
Proof.
  split; [|split; [|split; [|split]]].
  - apply (extension_of_precedence (env_of (fun _ _ => Fails "")) example_extractor).
    apply str_in_spec. reflexivity.
  - apply (extension_of_precedence (env_of (fun _ _ => Fails "")) example_extractor).
    apply str_in_spec. reflexivity.
  - apply (extension_of_precedence (env_of (fun _ _ => Fails "")) example_extractor).
    + apply str_in_spec. reflexivity.
    + intros H. apply str_in_spec in H. discriminate H.
  - apply (extension_of_precedence (env_of (fun _ _ => Fails "")) example_extractor).
  - exact (proj2 (proj2 (proj2 (extension_of_precedence
             (env_of (fun _ _ => Responds (image_response "image/png, image/gif" ["data"])))
             example_extractor "image/png, image/gif")))
             (PStr "abc") (PStr "both") "out" empty_world
             (image_response "image/png, image/gif" ["data"])
             eq_refl eq_refl eq_refl eq_refl).
Defined.

(** ** What a step leaves untouched *)

Lemma listing_only_refl (w : world) : listing_only w w.
Proof.
  split; [reflexivity|]. split; [reflexivity|].
  exists []. rewrite app_nil_r. split; [reflexivity | constructor].
Qed.

Lemma listing_only_trans (w1 w2 w3 : world) :
  listing_only w1 w2 -> listing_only w2 w3 -> listing_only w1 w3.
Proof.
  intros (Hf1 & Hd1 & reqs1 & Hr1 & Hs1) (Hf2 & Hd2 & reqs2 & Hr2 & Hs2).
  split; [congruence|]. split; [congruence|].
  exists (reqs1 ++ reqs2)%list. split.
  - rewrite Hr2, Hr1, app_assoc. reflexivity.
  - apply Forall_app. split; assumption.
Qed.

Lemma listing_only_stdout (s : string) (w : world) : listing_only w (add_stdout s w).
Proof.
  split; [reflexivity|]. split; [reflexivity|].
  exists []. simpl. rewrite app_nil_r. split; [reflexivity | constructor].
Qed.

Lemma listing_only_sleep (w : world) : listing_only w (add_sleep w).
Proof.
  split; [reflexivity|]. split; [reflexivity|].
  exists []. simpl. rewrite app_nil_r. split; [reflexivity | constructor].
Qed.

Lemma listing_only_request (req : request) (w : world) :
  req_stream req = false -> listing_only w (record_request req w).
Proof.
  intros H. split; [reflexivity|]. split; [reflexivity|].
  exists [req]. split; [reflexivity|]. constructor; [exact H | constructor].
Qed.

Section Frames.

Context (env : Env) (self : MattermostEmojiExtractor).

(** [test_connection] always returns, after one request and one line. *)
Lemma test_connection_total (w : world) :
  exists b msg,
    test_connection env self w
    = (Ret b, add_stdout (line msg) (record_request (identity_request self) w)).
Proof.
  rewrite test_connection_run.
  destruct (http_get env w (identity_request self)) as [m|r]; simpl; [eauto|].
  destruct (status_code r =? 200)%Z; [|eauto].
  destruct (json r) as [m|v]; [eauto|].
  destruct (py_get v "username" (PStr "Unknown")); eauto.
Qed.

(** [get_custom_emojis] always returns, after one request: the decoded
    body and no output, or the empty list and one line. *)
Lemma get_custom_emojis_total (page per_page : Z) (w : world) :
  let w1 := record_request (page_request self page per_page) w in
  exists v w',
    get_custom_emojis env self page per_page w = (Ret v, w')
    /\ (w' = w1 \/ v = PList [] /\ exists msg, w' = add_stdout (line msg) w1).
Proof.
  intros w1. rewrite get_custom_emojis_run. fold w1.
  destruct (http_get env w (page_request self page per_page)) as [m|r]; [eauto 8|].
  destruct (status_code r =? 200)%Z; [|eauto 8].
  destruct (json r) as [m|v]; eauto 8.
Qed.

Lemma get_custom_emojis_listing_only (page per_page : Z) (w w' : world) (o : outcome pyval) :
  get_custom_emojis env self page per_page w = (o, w') -> listing_only w w'.
Proof.
  intros H.
  destruct (get_custom_emojis_total page per_page w) as (v & w1 & Hrun & Hw).
  rewrite Hrun in H. injection H as _ <-.
  pose proof (listing_only_request (page_request self page per_page) w eq_refl) as Hreq.
  destruct Hw as [-> | (_ & msg & ->)].
  - exact Hreq.
  - eapply listing_only_trans; [exact Hreq|].
    apply listing_only_stdout.
Qed.

(** [download_emoji_image] always returns, after one request; when it
    returns false it has printed one line, and none otherwise. *)
Lemma download_emoji_image_total (emoji_id emoji_name : pyval) (download_dir : string)
    (w : world) :
  exists b w',
    download_emoji_image env self emoji_id emoji_name download_dir w = (Ret b, w')
    /\ w_requests w' = (w_requests w ++ [image_request env self emoji_id])%list
    /\ w_dirs w' = w_dirs w
    /\ (if b then w_stdout w' = w_stdout w
        else exists msg, w_stdout w' = (w_stdout w ++ [line msg])%list).
Proof.
  rewrite download_emoji_image_run.
  destruct (http_get env w (image_request env self emoji_id)) as [m|r]; simpl.
  { eexists _, _. split; [reflexivity|]. simpl. eauto. }
  destruct (status_code r =? 200)%Z.
  2: { eexists _, _. split; [reflexivity|]. simpl. eauto. }
  destruct (open_error env _ _).
  { eexists _, _. split; [reflexivity|]. simpl. eauto. }
  destruct (iter_error r); eexists _, _; (split; [reflexivity|]); simpl; eauto.
Qed.

(** The loop of [get_all_custom_emojis] writes no file, creates no
    directory and requests no image, however it ends. *)
Lemma get_all_loop_listing_only (fuel : nat) :
  forall (page per_page : Z) (acc : list pyval) (w w' : world) (o : outcome (list pyval)),
  get_all_loop env fuel self page per_page acc w = (o, w') -> listing_only w w'.
Proof.
  induction fuel as [|fuel IH]; intros page per_page acc w w' o H.
  - injection H as _ <-. apply listing_only_refl.
  - simpl in H.
    destruct (get_custom_emojis_total page per_page w) as (v & w1 & Hrun & _).
    pose proof (get_custom_emojis_listing_only _ _ _ _ _ Hrun) as Hstep.
    rewrite (run_bind_ret _ _ _ _ _ Hrun) in H.
    apply (listing_only_trans _ _ _ Hstep).
    destruct (py_truthy v); simpl in H.
    2: { injection H as _ <-. apply listing_only_refl. }
    destruct (py_iter v) as [e|items]; run_in H.
    { injection H as _ <-. apply listing_only_refl. }
    destruct (py_len v) as [e|n]; run_in H.
    { injection H as _ <-. apply listing_only_refl. }
    destruct (Z.of_nat n <? per_page)%Z.
    + injection H as _ <-. apply listing_only_stdout.
    + apply IH in H. eapply listing_only_trans; [|exact H].
      eapply listing_only_trans; [apply listing_only_stdout | apply listing_only_sleep].
Qed.

Lemma get_all_custom_emojis_listing_only (fuel : nat) (w w' : world)
    (o : outcome (list pyval)) :
  get_all_custom_emojis env fuel self w = (o, w') -> listing_only w w'.
Proof.
  unfold get_all_custom_emojis. run. intros H.
  destruct (get_all_loop env fuel self 0 200 [] _) as [o1 w1] eqn:Hloop.
  apply get_all_loop_listing_only in Hloop.
  eapply listing_only_trans; [apply listing_only_stdout|].
  eapply listing_only_trans; [exact Hloop|].
  destruct o1; injection H as _ <-;
    [apply listing_only_stdout | apply listing_only_refl | apply listing_only_refl].
Qed.

End Frames.

(** ** Extracting *)

Section Extract.

Context (env : Env) (self : MattermostEmojiExtractor).

Lemma has_id_name_id (emoji : pyval) :
  has_id_name emoji -> py_getitem emoji "id" = inr (emoji_id_of emoji).
Proof.
  intros (id & name & Hid & _). unfold emoji_id_of. rewrite Hid. reflexivity.
Qed.

(** Against records that have an id and a name, the download loop
    requests one image per record, in order, and returns the count. *)
Lemma download_each_run (download_dir : string) (total : nat) (emojis : list pyval) :
  forall (i success_count : nat) (w : world),
  Forall has_id_name emojis ->
  exists n w',
    download_each env self download_dir total emojis i success_count w = (Ret n, w')
    /\ w_requests w' = (w_requests w ++ image_requests env self emojis)%list
    /\ w_dirs w' = w_dirs w
    /\ success_count <= n <= success_count + length emojis.
Proof.
  induction emojis as [|emoji rest IH]; intros i success_count w Hall.
  - exists success_count, w. simpl. rewrite app_nil_r. repeat split; lia.
  - inversion Hall as [|? ? Hemoji Hrest]; subst.
    pose proof (has_id_name_id _ Hemoji) as Hid.
    destruct Hemoji as (id & name & _ & Hname).
    simpl. rewrite Hid, Hname. run.
    match goal with
    | |- context [download_emoji_image ?e ?s ?a ?b ?d ?w0] =>
        destruct (download_emoji_image_total e s a b d w0) as (ok & w1 & Hrun & Hreq & Hdirs & _)
    end.
    rewrite Hrun.
    destruct ok; simpl.
    + match goal with
      | |- context [download_each _ _ _ _ _ ?i' ?s' ?w0] =>
          destruct (IH i' s' w0 Hrest) as (n & w' & Hrest_run & Hreq' & Hdirs' & Hn)
      end.
      exists n, w'. rewrite Hrest_run. split; [reflexivity|].
      simpl in Hreq', Hdirs'. rewrite Hreq', Hreq, Hdirs', Hdirs. simpl.
      rewrite <- app_assoc. repeat split; lia.
    + match goal with
      | |- context [download_each _ _ _ _ _ ?i' ?s' ?w0] =>
          destruct (IH i' s' w0 Hrest) as (n & w' & Hrest_run & Hreq' & Hdirs' & Hn)
      end.
      exists n, w'. rewrite Hrest_run. split; [reflexivity|].
      simpl in Hreq', Hdirs'. rewrite Hreq', Hreq, Hdirs', Hdirs. simpl.
      rewrite <- app_assoc. repeat split; lia.
Qed.

(** A download changes no file but the image it writes, whose name does
    not end in [n]. *)
Lemma download_emoji_image_keeps (emoji_id emoji_name : pyval) (download_dir : string)
    (w w' : world) (o : outcome bool) (path : string) :
  download_emoji_image env self emoji_id emoji_name download_dir w = (o, w') ->
  last_char path = Some "n"%char ->
  w_files w' !! path = w_files w !! path.
Proof.
  rewrite download_emoji_image_run. intros H Hpath.
  destruct (http_get env w (image_request env self emoji_id)) as [m|r].
  { injection H as _ <-. reflexivity. }
  destruct (status_code r =? 200)%Z.
  2: { injection H as _ <-. reflexivity. }
  cbv zeta in H.
  assert (Hne : image_path env download_dir emoji_name r <> path).
  { intros <-. exact (image_path_last_char env _ _ _ Hpath). }
  destruct (open_error env _ _).
  { injection H as _ <-. reflexivity. }
  destruct (iter_error r); injection H as _ <-; simpl; apply lookup_insert_ne, Hne.
Qed.

Lemma download_each_keeps (download_dir : string) (total : nat) (emojis : list pyval)
    (path : string) :
  last_char path = Some "n"%char ->
  forall (i success_count : nat) (w w' : world) (o : outcome nat),
  download_each env self download_dir total emojis i success_count w = (o, w') ->
  w_files w' !! path = w_files w !! path.
Proof.
  intros Hpath. induction emojis as [|emoji rest IH]; intros i success_count w w' o H.
  - injection H as _ <-. reflexivity.
  - simpl in H.
    destruct (py_getitem emoji "id") as [e|id]; run_in H.
    { injection H as _ <-. reflexivity. }
    destruct (py_getitem emoji "name") as [e|name]; run_in H.
    { injection H as _ <-. reflexivity. }
    match type of H with
    | context [download_emoji_image ?a ?b ?c ?d ?e ?w0] =>
        destruct (download_emoji_image a b c d e w0) as [ok w1] eqn:Hdl
    end.
    apply download_emoji_image_keeps with (path := path) in Hdl; [|exact Hpath].
    simpl in Hdl.
    destruct ok as [[|]|e|]; simpl in H.
    + apply IH in H. simpl in H. congruence.
    + apply IH in H. simpl in H. congruence.
    + injection H as _ <-. exact Hdl.
    + injection H as _ <-. exact Hdl.
Qed.

(** [extract_emojis] once the directory exists and the connection test
    has passed. *)
Lemma extract_emojis_connected (fuel : nat) (download_dir : string) (w w2 : world) :
  mkdir_error env w download_dir = None ->
  test_connection env self (made_dir download_dir w) = (Ret true, w2) ->
  extract_emojis env fuel self download_dir w =
  match get_all_custom_emojis env fuel self w2 with
  | (Ret [], w3) =>
      (Ret tt, add_stdout (line "No custom emojis found or unable to retrieve emojis.") w3)
  | (Ret emojis, w3) =>
      match open_error env w3 (metadata_path download_dir) with
      | Some msg => (Raise (OSError msg), w3)
      | None =>
          match download_each env self download_dir (length emojis) emojis 1 0
                  (persisted env download_dir emojis w3) with
          | (Ret n, w4) => (Ret tt, reported env download_dir n (length emojis) w4)
          | (Raise e, w4) => (Raise e, w4)
          | (OutOfFuel, w4) => (OutOfFuel, w4)
          end
      end
  | (Raise e, w3) => (Raise e, w3)
  | (OutOfFuel, w3) => (OutOfFuel, w3)
  end.
Proof.
  intros Hm Hc. unfold extract_emojis.
  rewrite (run_bind_ret _ _ _ _ _ (path_mkdir_ok env _ _ Hm)).
  rewrite (run_bind_ret _ _ _ _ _ Hc). cbn [negb].
  destruct (get_all_custom_emojis env fuel self w2) as [[emojis|e|] w3] eqn:Hg.
  2: { rewrite (run_bind_raise _ _ _ _ _ Hg). reflexivity. }
  2: { rewrite (run_bind_out_of_fuel _ _ _ _ Hg). reflexivity. }
  rewrite (run_bind_ret _ _ _ _ _ Hg).
  destruct emojis as [|emoji rest]; [reflexivity|].
  cbv beta iota.
  assert (Ht : py_truthy (PList (emoji :: rest)) = true) by reflexivity.
  revert Ht. generalize (emoji :: rest). intros emojis Ht.
  rewrite Ht. cbn [negb].
  fold (metadata_path download_dir).
  unfold mbind at 1, action_bind at 1, open_write.
  destruct (open_error env w3 (metadata_path download_dir)); [reflexivity|].
  run. unfold file_write. simpl.
  rewrite lookup_insert_eq, insert_insert_eq. simpl.
  change ("" +:+ json_dumps env (PList emojis)) with (json_dumps env (PList emojis)).
  fold (line ("✓ Saved emoji metadata to " +:+ metadata_path download_dir)).
  fold (line (nl +:+ "Downloading emoji images to " +:+ download_dir +:+ "...")).
  match goal with
  | |- (let (_, _) := download_each _ _ _ _ _ _ _ ?h in _) = _ =>
      change h with (persisted env download_dir emojis w3)
  end.
  destruct (download_each env self download_dir (length emojis) emojis 1 0
              (persisted env download_dir emojis w3)) as [[n|ex|] w4]; reflexivity.
Qed.

Lemma get_custom_emojis_fails (page per_page : Z) (w : world) :
  request_fails env w (page_request self page per_page) ->
  exists msg,
    get_custom_emojis env self page per_page w
    = (Ret (PList []),
       add_stdout (line ("Error fetching emojis: " +:+ msg))
         (record_request (page_request self page per_page) w)).
Proof.
  intros [[msg H] | (r & H & Hs)]; rewrite get_custom_emojis_run, H.
  - eauto.
  - destruct (Z.eqb_spec (status_code r) 200); [contradiction | eauto].
Qed.

(** C7: when the listing comes back empty, [extract_emojis] prints the
    "no data" line and returns normally.  Nothing was written, so no
    metadata file was created, and no image was requested. *)
Theorem extract_no_emojis (fuel : nat) (download_dir : string) (w w2 w3 : world) :
  mkdir_error env w download_dir = None ->
  test_connection env self (made_dir download_dir w) = (Ret true, w2) ->
  get_all_custom_emojis env fuel self w2 = (Ret [], w3) ->
  let w' := add_stdout (line "No custom emojis found or unable to retrieve emojis.") w3 in
  extract_emojis env fuel self download_dir w = (Ret tt, w')
  /\ w_files w' = w_files w
  /\ (w_files w !! metadata_path download_dir = None ->
      w_files w' !! metadata_path download_dir = None)
  /\ exists reqs,
       w_requests w' = (w_requests w ++ identity_request self :: reqs)%list
       /\ Forall (fun r => req_stream r = false) reqs.
Proof.
  intros Hm Hc Hg w'.
  pose proof (get_all_custom_emojis_listing_only env self _ _ _ _ Hg)
    as (Hf & _ & reqs & Hreqs & Hplain).
  destruct (test_connection_total env self (made_dir download_dir w)) as (b & msg & Hc').
  rewrite Hc in Hc'. injection Hc' as _ ->.
  assert (Hfiles : w_files w' = w_files w) by (simpl; rewrite Hf; reflexivity).
  split; [|split; [exact Hfiles|split]].
  - rewrite (extract_emojis_connected fuel download_dir w _ Hm Hc), Hg. reflexivity.
  - intros Hnone. rewrite Hfiles. exact Hnone.
  - exists reqs. split; [|exact Hplain].
    simpl. rewrite Hreqs. simpl. rewrite <- app_assoc. reflexivity.
Qed.

(** C6: a page request that fails, by a transport failure or a status
    other than 200, makes [get_custom_emojis] log the cause and return
    the empty list; the loop of [get_all_custom_emojis] then stops with
    the records of the earlier pages, and [extract_emojis] goes on with
    exactly these: it requests the image of each of them. *)
Theorem listing_failure_truncates :
  (forall (page per_page : Z) (w : world) (msg : string),
     http_get env w (page_request self page per_page) = Fails msg ->
     get_custom_emojis env self page per_page w
     = (Ret (PList []),
        add_stdout (line ("Error fetching emojis: " +:+ msg))
          (record_request (page_request self page per_page) w)))
  /\
  (forall (page per_page : Z) (w : world) (r : response),
     http_get env w (page_request self page per_page) = Responds r ->
     status_code r <> 200%Z ->
     get_custom_emojis env self page per_page w
     = (Ret (PList []),
        add_stdout (line ("Error fetching emojis: " +:+ str_of_Z (status_code r)
                          +:+ " - " +:+ text r))
          (record_request (page_request self page per_page) w)))
  /\
  (forall (pages : nat -> list pyval) (k fuel : nat) (w : world),
     (forall i, i < k -> serves_page env self i (pages i) /\ length (pages i) = 200) ->
     (forall w', request_fails env w' (page_request self (Z.of_nat k) 200)) ->
     k < fuel ->
     exists w',
       get_all_custom_emojis env fuel self w = (Ret (concat (map pages (seq 0 k))), w')
       /\ w_requests w' = (w_requests w ++ page_requests self 0 (k + 1))%list)
  /\
  (forall (fuel : nat) (download_dir : string) (w w2 w3 : world) (emojis : list pyval),
     mkdir_error env w download_dir = None ->
     test_connection env self (made_dir download_dir w) = (Ret true, w2) ->
     get_all_custom_emojis env fuel self w2 = (Ret emojis, w3) ->
     emojis <> [] ->
     open_error env w3 (metadata_path download_dir) = None ->
     Forall has_id_name emojis ->
     exists w',
       extract_emojis env fuel self download_dir w = (Ret tt, w')
       /\ w_requests w' = (w_requests w3 ++ image_requests env self emojis)%list
       /\ w_files w' !! metadata_path download_dir = Some (json_dumps env (PList emojis))).
Proof.
  split; [|split; [|split]].
  - intros page per_page w msg H. rewrite get_custom_emojis_run, H. reflexivity.
  - intros page per_page w r H Hs. rewrite get_custom_emojis_run, H.
    destruct (Z.eqb_spec (status_code r) 200); [contradiction | reflexivity].
  - intros pages k fuel w Hfull Hfail Hfuel.
    destruct (get_all_loop_full_pages env self pages k 0 [] (fuel - k)
                (add_stdout (line "Fetching custom emojis...") w))
      as (w1 & Hrun & Hreq & _).
    { intros i Hi. apply Hfull. lia. }
    destruct (get_custom_emojis_fails (Z.of_nat k) 200 w1 (Hfail w1)) as (msg & Hget).
    destruct (fuel - k) as [|fuel'] eqn:Hf; [lia|].
    pose proof (get_all_loop_list env self fuel' _ _ (concat (map pages (seq 0 k))) _ _ _ Hget)
      as Hlast.
    eexists. split.
    + apply get_all_custom_emojis_run.
      change (Z.of_nat 0) with 0%Z in Hrun.
      replace fuel with (k + S fuel') by lia. rewrite Hrun.
      rewrite Nat.add_0_l, app_nil_l. exact Hlast.
    + simpl. rewrite Hreq. simpl. unfold page_requests.
      replace (k + 1) with (S k) by lia.
      rewrite seq_S, map_app, <- app_assoc. reflexivity.
  - intros fuel download_dir w w2 w3 emojis Hm Hc Hg Hne Ho Hall.
    rewrite (extract_emojis_connected fuel download_dir w _ Hm Hc), Hg.
    destruct emojis as [|emoji rest]; [contradiction|].
    rewrite Ho.
    destruct (download_each_run download_dir (length (emoji :: rest)) (emoji :: rest) 1 0
                (persisted env download_dir (emoji :: rest) w3) Hall)
      as (n & w4 & Hrun & Hreq & _).
    rewrite Hrun. eexists. split; [reflexivity|]. split.
    + simpl. simpl in Hreq. exact Hreq.
    + apply download_each_keeps with (path := metadata_path download_dir) in Hrun.
      2: { apply metadata_path_last_char. }
      simpl. rewrite Hrun. simpl. apply lookup_insert_eq.
Qed.

(** C8: with a configuration constant left at its placeholder, [main]
    prints the title and the instructions and returns.  It issues no
    request, writes no file and creates no directory; this is what
    [main] does as the source has it. *)
Theorem main_unconfigured (MATTERMOST_URL ACCESS_TOKEN DOWNLOAD_DIR : string)
    (fuel : nat) (w : world) :
  MATTERMOST_URL = "https://your-mattermost-server.com"
  \/ ACCESS_TOKEN = "your-access-token-here" ->
  let w' := printed instructions w in
  main_with env MATTERMOST_URL ACCESS_TOKEN DOWNLOAD_DIR fuel w = (Ret tt, w')
  /\ main env fuel w = (Ret tt, w')
  /\ w_requests w' = w_requests w
  /\ w_files w' = w_files w
  /\ w_dirs w' = w_dirs w
  /\ w_sleeps w' = w_sleeps w.
Proof.
  intros H w'. split; [|repeat split].
  unfold main_with.
  assert (Hcond : (String.eqb MATTERMOST_URL "https://your-mattermost-server.com"
                   || String.eqb ACCESS_TOKEN "your-access-token-here")%bool = true).
  { destruct H as [-> | ->]; rewrite String.eqb_refl; [reflexivity | apply orb_true_r]. }
  rewrite Hcond. reflexivity.
Qed.

End Extract.

(** ** The theorems at work *)

Lemma has_id_name_record (id name : string) : has_id_name (emoji_record id name).
Proof. exists (PStr id), (PStr name). split; reflexivity. Qed.

Lemma Forall_has_id_name_repeat (id name : string) (n : nat) :
  Forall has_id_name (repeat (emoji_record id name) n).
Proof.
  induction n as [|n IH]; simpl; constructor; [apply has_id_name_record | exact IH].
Qed.

Lemma failing_after_serves (pages : list (list pyval)) (self : MattermostEmojiExtractor)
    (page : nat) (l : list pyval) :
  pages !! page = Some l -> serves_page (failing_after pages) self page l.
Proof.
  intros H w. exists (ok_json (PList l)). split; [|split; reflexivity].
  simpl. rewrite Nat2Z.id, H. reflexivity.
Qed.

(** A server that has no custom emoji. *)
Lemma extract_no_emojis_witness :
  exists w',
    extract_emojis (collection_server []) 1 example_extractor "mattermost_emojis" empty_world
    = (Ret tt, w')
    /\ w_files w' = ∅
    /\ w_files w' !! metadata_path "mattermost_emojis" = None
    /\ exists reqs,
         w_requests w' = identity_request example_extractor :: reqs
         /\ Forall (fun r => req_stream r = false) reqs.
Proof.
  edestruct (extract_no_emojis (collection_server []) example_extractor 1
               "mattermost_emojis" empty_world) as (Hrun & Hfiles & Hmeta & Hreqs).
  - reflexivity.
  - reflexivity.
  - reflexivity.
  - eexists. split; [exact Hrun|]. split; [exact Hfiles|].
    split; [apply Hmeta; reflexivity | exact Hreqs].
Defined.

(** The token was set, the URL was left at the placeholder. *)
Lemma main_unconfigured_witness :
  let w' := printed instructions empty_world in
  main_with (collection_server []) "https://your-mattermost-server.com" "a-real-token"
    "mattermost_emojis" 1 empty_world = (Ret tt, w')
  /\ main (collection_server []) 1 empty_world = (Ret tt, w')
  /\ w_requests w' = []
  /\ w_files w' = ∅
  /\ w_dirs w' = ∅
  /\ w_sleeps w' = 0.
Proof.
  apply (main_unconfigured (collection_server [])
           "https://your-mattermost-server.com" "a-real-token" "mattermost_emojis" 1
           empty_world).
  left. reflexivity.
Defined.


(** A server with one full page whose second page answers 500. *)
Lemma listing_failure_truncates_witness :
  let page0 := repeat (emoji_record "abc" "partyparrot") 200 in
  let env := failing_after [page0] in
  let self := example_extractor in
  get_custom_emojis (env_of (fun _ _ => Fails "Read timed out")) self 1 200 empty_world
  = (Ret (PList []),
     add_stdout (line "Error fetching emojis: Read timed out")
       (record_request (page_request self 1 200) empty_world))
  /\ get_custom_emojis env self 1 200 empty_world
     = (Ret (PList []),
        add_stdout (line "Error fetching emojis: 500 - Internal Server Error")
          (record_request (page_request self 1 200) empty_world))
  /\ (exists w',
        get_all_custom_emojis env 2 self empty_world = (Ret (page0 ++ [])%list, w')
        /\ w_requests w' = page_requests self 0 2)
  /\ (exists w3 w',
        extract_emojis env 2 self "mattermost_emojis" empty_world = (Ret tt, w')
        /\ w_requests w' = (w_requests w3 ++ image_requests env self page0)%list
        /\ w_files w' !! metadata_path "mattermost_emojis"
           = Some (json_dumps env (PList page0))).
Proof.
  intros page0 env self.
  split; [|split; [|split]].
  - exact (proj1 (listing_failure_truncates (env_of (fun _ _ => Fails "Read timed out")) self)
             1%Z 200%Z empty_world "Read timed out" eq_refl).
  - refine (proj1 (proj2 (listing_failure_truncates env self))
              1%Z 200%Z empty_world (plain_response 500 "Internal Server Error") eq_refl _).
    simpl. lia.
  - apply (proj1 (proj2 (proj2 (listing_failure_truncates env self)))
             (fun _ => page0) 1 2 empty_world).
    + intros i Hi. assert (i = 0) as -> by lia.
      split; [apply failing_after_serves; reflexivity | reflexivity].
    + intros w'. right. exists (plain_response 500 "Internal Server Error").
      split; [reflexivity | simpl; lia].
    + lia.
  - eexists.
    eapply (proj2 (proj2 (proj2 (listing_failure_truncates env self)))
              2 "mattermost_emojis" empty_world _ _ page0).
    + reflexivity.
    + reflexivity.
    + vm_compute. reflexivity.
    + discriminate.
    + reflexivity.
    + apply Forall_has_id_name_repeat.
Defined.

(** ** The program at work *)

(** The end-to-end scenario: two emojis, [foo] (png) and [bar] (gif). *)
Example extract_two_emojis :
  let run := extract_emojis two_emoji_server 1 example_extractor "out" empty_world in
  fst run = Ret tt
  /\ map_to_list (w_files (snd run))
     = [("out/emoji_metadata.json", "[]"); ("out/foo.png", "PNGDATA"); ("out/bar.gif", "GIF")]
  /\ map req_url (w_requests (snd run))
     = ["https://chat.example.org/api/v4/users/me";
        "https://chat.example.org/api/v4/emoji";
        "https://chat.example.org/api/v4/emoji/1/image";
        "https://chat.example.org/api/v4/emoji/2/image"]
  /\ last (w_stdout (snd run)) = Some (line "✓ Files saved to: /home/user/out")
  /\ w_stdout (snd run) !! 10 = Some (line (nl +:+ "✓ Downloaded 2/2 emojis successfully!"))
  /\ w_sleeps (snd run) = 2.
Proof. vm_compute. repeat split. Qed.

Example rstrip_slash_examples :
  rstrip_slash "https://chat.example.org//" = "https://chat.example.org"
  /\ rstrip_slash "a/b/" = "a/b" /\ rstrip_slash "//" = "".
Proof. repeat split. Qed.

Example os_path_join_examples :
  os_path_join "out" "foo.png" = "out/foo.png"
  /\ os_path_join "out/" "foo.png" = "out/foo.png"
  /\ os_path_join "" "foo.png" = "foo.png"
  /\ os_path_join "out" "/tmp/foo.png" = "/tmp/foo.png".
Proof. repeat split. Qed.

Example py_iter_examples :
  py_iter (PStr "a✓b") = inr [PStr "a"; PStr "✓"; PStr "b"]
  /\ py_iter (PDict [("id", PInt 1); ("name", PNone); ("id", PInt 2)])
     = inr [PStr "id"; PStr "name"]
  /\ py_getitem (PDict [("id", PInt 1); ("name", PNone); ("id", PInt 2)]) "id" = inr (PInt 2)
  /\ py_iter (PInt 5) = inl (TypeError "'int' object is not iterable").
Proof. repeat split. Qed.

Example str_of_Z_examples :
  str_of_Z 200 = "200" /\ str_of_Z 0 = "0" /\ str_of_Z (-7) = "-7" /\ str_of_nat 473 = "473".
Proof. repeat split. Qed.

(** * Further properties of the code *)

(** ** An invariant principle for whole runs *)

(** A relation between worlds that every effect of the program keeps is
    kept by every run, however the run ends. *)
Section Invariant.

Context (env : Env) (self : MattermostEmojiExtractor) (download_dir : string).
Variable R : world -> world -> Prop.
Hypothesis R_refl : forall w, R w w.
Hypothesis R_trans : forall w1 w2 w3, R w1 w2 -> R w2 w3 -> R w1 w3.
Hypothesis R_print : forall s w, R w (add_stdout s w).
Hypothesis R_sleep : forall w, R w (add_sleep w).
Hypothesis R_identity : forall w, R w (record_request (identity_request self) w).
Hypothesis R_page : forall page w, R w (record_request (page_request self page 200) w).
Hypothesis R_image : forall id w, R w (record_request (image_request env self id) w).
Hypothesis R_mkdir : forall w, R w (made_dir download_dir w).
Hypothesis R_metadata :
  forall c w, R w (set_files (<[metadata_path download_dir := c]> (w_files w)) w).
Hypothesis R_image_file :
  forall name r w,
    R w (set_files (<[image_path env download_dir name r := body r]> (w_files w)) w).

Lemma test_connection_invariant (w w' : world) (o : outcome bool) :
  test_connection env self w = (o, w') -> R w w'.
Proof.
  destruct (test_connection_total env self w) as (b & msg & Hrun).
  rewrite Hrun. intros [= _ <-].
  eapply R_trans; [apply R_identity | apply R_print].
Qed.

Lemma get_custom_emojis_invariant (page : Z) (w w' : world) (o : outcome pyval) :
  get_custom_emojis env self page 200 w = (o, w') -> R w w'.
Proof.
  destruct (get_custom_emojis_total env self page 200 w) as (v & w1 & Hrun & Hw).
  rewrite Hrun. intros [= _ <-].
  destruct Hw as [-> | (_ & msg & ->)].
  - apply R_page.
  - eapply R_trans; [apply R_page | apply R_print].
Qed.

Lemma get_all_loop_invariant (fuel : nat) :
  forall (page : Z) (acc : list pyval) (w w' : world) (o : outcome (list pyval)),
  get_all_loop env fuel self page 200 acc w = (o, w') -> R w w'.
Proof.
  induction fuel as [|fuel IH]; intros page acc w w' o H.
  - injection H as _ <-. apply R_refl.
  - simpl in H.
    destruct (get_custom_emojis_total env self page 200 w) as (v & w1 & Hrun & _).
    pose proof (get_custom_emojis_invariant _ _ _ _ Hrun) as Hstep.
    rewrite (run_bind_ret _ _ _ _ _ Hrun) in H.
    apply (R_trans _ _ _ Hstep).
    destruct (py_truthy v); simpl in H.
    2: { injection H as _ <-. apply R_refl. }
    destruct (py_iter v) as [e|items]; run_in H.
    { injection H as _ <-. apply R_refl. }
    destruct (py_len v) as [e|n]; run_in H.
    { injection H as _ <-. apply R_refl. }
    destruct (Z.of_nat n <? 200)%Z.
    + injection H as _ <-. apply R_print.
    + apply IH in H. eapply R_trans; [|exact H].
      eapply R_trans; [apply R_print | apply R_sleep].
Qed.

Lemma get_all_custom_emojis_invariant (fuel : nat) (w w' : world)
    (o : outcome (list pyval)) :
  get_all_custom_emojis env fuel self w = (o, w') -> R w w'.
Proof.
  unfold get_all_custom_emojis. run. intros H.
  destruct (get_all_loop env fuel self 0 200 [] _) as [o1 w1] eqn:Hloop.
  apply get_all_loop_invariant in Hloop.
  eapply R_trans; [apply R_print|].
  eapply R_trans; [exact Hloop|].
  destruct o1; injection H as _ <-; [apply R_print | apply R_refl | apply R_refl].
Qed.

Lemma download_emoji_image_invariant (emoji_id emoji_name : pyval) (w w' : world)
    (o : outcome bool) :
  download_emoji_image env self emoji_id emoji_name download_dir w = (o, w') -> R w w'.
Proof.
  rewrite download_emoji_image_run. intros H.
  pose proof (R_image emoji_id w) as Hreq.
  destruct (http_get env w (image_request env self emoji_id)) as [m|r].
  { injection H as _ <-. eapply R_trans; [exact Hreq | apply R_print]. }
  destruct (status_code r =? 200)%Z.
  2: { injection H as _ <-. eapply R_trans; [exact Hreq | apply R_print]. }
  cbv zeta in H.
  destruct (open_error env _ _).
  { injection H as _ <-. eapply R_trans; [exact Hreq | apply R_print]. }
  pose proof (R_image_file emoji_name r (record_request (image_request env self emoji_id) w))
    as Hfile.
  destruct (iter_error r); injection H as _ <-.
  - eapply R_trans; [exact Hreq|]. eapply R_trans; [exact Hfile | apply R_print].
  - eapply R_trans; [exact Hreq | exact Hfile].
Qed.

Lemma download_each_invariant (total : nat) (emojis : list pyval) :
  forall (i success_count : nat) (w w' : world) (o : outcome nat),
  download_each env self download_dir total emojis i success_count w = (o, w') -> R w w'.
Proof.
  induction emojis as [|emoji rest IH]; intros i success_count w w' o H.
  - injection H as _ <-. apply R_refl.
  - simpl in H.
    destruct (py_getitem emoji "id") as [e|id]; run_in H.
    { injection H as _ <-. apply R_refl. }
    destruct (py_getitem emoji "name") as [e|name]; run_in H.
    { injection H as _ <-. apply R_refl. }
    match type of H with
    | context [download_emoji_image ?a ?b ?c ?d ?e ?w0] =>
        destruct (download_emoji_image a b c d e w0) as [ok w1] eqn:Hdl;
        assert (Hstep : R w w1)
          by (eapply R_trans; [apply R_print | exact (download_emoji_image_invariant _ _ _ _ _ Hdl)])
    end.
    apply (R_trans _ _ _ Hstep).
    destruct ok as [[|]|e|]; simpl in H.
    + apply IH in H. eapply R_trans; [|exact H].
      eapply R_trans; [apply R_print | apply R_sleep].
    + apply IH in H. eapply R_trans; [|exact H].
      eapply R_trans; [apply R_print | apply R_sleep].
    + injection H as _ <-. apply R_refl.
    + injection H as _ <-. apply R_refl.
Qed.

Lemma extract_emojis_invariant (fuel : nat) (w w' : world) (o : outcome unit) :
  extract_emojis env fuel self download_dir w = (o, w') -> R w w'.
Proof.
  intros H.
  destruct (mkdir_error env w download_dir) as [msg|] eqn:Hm.
  { unfold extract_emojis in H.
    rewrite (run_bind_raise _ _ _ _ _ (path_mkdir_raises env _ _ _ Hm)) in H.
    injection H as _ <-. apply R_refl. }
  apply (R_trans _ _ _ (R_mkdir w)).
  destruct (test_connection_total env self (made_dir download_dir w)) as (b & msg & Hc).
  pose proof (test_connection_invariant _ _ _ Hc) as Hconnect.
  apply (R_trans _ _ _ Hconnect).
  destruct b.
  2: { rewrite (extract_emojis_not_connected env self fuel _ _ _ Hm Hc) in H.
       injection H as _ <-. apply R_refl. }
  rewrite (extract_emojis_connected env self fuel download_dir w _ Hm Hc) in H.
  match type of H with
  | context [get_all_custom_emojis ?a ?b ?c ?d] =>
      destruct (get_all_custom_emojis a b c d) as [o1 w3] eqn:Hg
  end.
  apply get_all_custom_emojis_invariant in Hg.
  apply (R_trans _ _ _ Hg).
  destruct o1 as [emojis|e|]; [|injection H as _ <-; apply R_refl..].
  destruct emojis as [|emoji rest].
  { injection H as _ <-. apply R_print. }
  destruct (open_error env w3 (metadata_path download_dir)).
  { injection H as _ <-. apply R_refl. }
  assert (Hpersist : R w3 (persisted env download_dir (emoji :: rest) w3)).
  { unfold persisted. eapply R_trans; [apply R_metadata|].
    eapply R_trans; apply R_print. }
  apply (R_trans _ _ _ Hpersist).
  destruct (download_each env self download_dir _ _ 1 0 _) as [o2 w4] eqn:Hdl.
  apply download_each_invariant in Hdl.
  apply (R_trans _ _ _ Hdl).
  destruct o2; injection H as _ <-; [|apply R_refl..].
  unfold reported. eapply R_trans; apply R_print.
Qed.

End Invariant.

(** ** What every run issues and leaves behind *)

Lemma issued_refl (P : request -> Prop) (w : world) : issued P w w.
Proof. exists []. rewrite app_nil_r. split; [reflexivity | constructor]. Qed.

Lemma issued_trans (P : request -> Prop) (w1 w2 w3 : world) :
  issued P w1 w2 -> issued P w2 w3 -> issued P w1 w3.
Proof.
  intros (reqs1 & H1 & HP1) (reqs2 & H2 & HP2).
  exists (reqs1 ++ reqs2)%list. split.
  - rewrite H2, H1, app_assoc. reflexivity.
  - apply Forall_app. split; assumption.
Qed.

Lemma issued_same_requests (P : request -> Prop) (w w' : world) :
  w_requests w' = w_requests w -> issued P w w'.
Proof.
  intros H. exists []. rewrite app_nil_r. split; [exact H | constructor].
Qed.

Lemma issued_request (P : request -> Prop) (req : request) (w : world) :
  P req -> issued P w (record_request req w).
Proof.
  intros H. exists [req]. split; [reflexivity|]. constructor; [exact H | constructor].
Qed.

Lemma footprint_refl (download_dir : string) (w : world) : footprint download_dir w w.
Proof.
  split; [exists []; rewrite app_nil_r; reflexivity|].
  split; [set_solver|]. split; [set_solver|]. split; [auto | lia].
Qed.

Lemma footprint_trans (download_dir : string) (w1 w2 w3 : world) :
  footprint download_dir w1 w2 -> footprint download_dir w2 w3 ->
  footprint download_dir w1 w3.
Proof.
  intros ((out1 & Ho1) & Hd1 & Hd1' & Hf1 & Hs1) ((out2 & Ho2) & Hd2 & Hd2' & Hf2 & Hs2).
  split; [exists (out1 ++ out2)%list; rewrite Ho2, Ho1, app_assoc; reflexivity|].
  split; [etrans; eassumption|]. split; [|split; [auto | lia]].
  intros x Hx. apply Hd2', elem_of_union in Hx. apply elem_of_union.
  destruct Hx as [Hx | Hx]; [left; exact Hx | apply Hd1', elem_of_union in Hx; exact Hx].
Qed.

Lemma footprint_print (download_dir s : string) (w : world) :
  footprint download_dir w (add_stdout s w).
Proof.
  split; [exists [s]; reflexivity|].
  split; [set_solver|]. split; [set_solver|]. split; [auto | simpl; lia].
Qed.

Lemma footprint_same (download_dir : string) (w w' : world) :
  w_stdout w' = w_stdout w -> w_dirs w' = w_dirs w -> w_files w' = w_files w ->
  w_sleeps w <= w_sleeps w' ->
  footprint download_dir w w'.
Proof.
  intros Ho Hd Hf Hs.
  split; [exists []; rewrite app_nil_r; exact Ho|].
  rewrite Hd, Hf. split; [reflexivity|]. split; [apply union_subseteq_r|].
  split; [auto | exact Hs].
Qed.

Lemma footprint_mkdir (download_dir : string) (w : world) :
  footprint download_dir w (made_dir download_dir w).
Proof.
  split; [exists []; rewrite app_nil_r; reflexivity|].
  simpl. split; [set_solver|]. split; [set_solver|]. split; [auto | lia].
Qed.

Lemma footprint_write (download_dir path content : string) (w : world) :
  footprint download_dir w (set_files (<[path := content]> (w_files w)) w).
Proof.
  split; [exists []; rewrite app_nil_r; reflexivity|].
  simpl. split; [set_solver|]. split; [set_solver|]. split; [|lia].
  intros p Hp. apply lookup_insert_is_Some.
  destruct (decide (path = p)); [left; assumption | right; split; assumption].
Qed.

Section Footprint.

Context (env : Env).

(** X1: every request of a run of [extract_emojis], however the run
    ends, carries the two headers [__init__] gave the session, with the
    bearer token, and goes to a URL under [/api/v4/] of the server URL
    with its trailing slashes stripped. *)
Theorem extract_requests_carry_token (url token download_dir : string) (fuel : nat)
    (w w' : world) (o : outcome unit) :
  extract_emojis env fuel (__init__ url token) download_dir w = (o, w') ->
  exists reqs,
    w_requests w' = (w_requests w ++ reqs)%list
    /\ Forall (fun r =>
         req_headers r = [("Authorization", "Bearer " +:+ token);
                          ("Content-Type", "application/json")]
         /\ exists rest, req_url r = rstrip_slash url +:+ "/api/v4/" +:+ rest) reqs.
Proof.
  intros H.
  apply (extract_emojis_invariant env (__init__ url token) download_dir
           (issued (own_request (__init__ url token)))) in H; [exact H|..].
  - apply issued_refl.
  - apply issued_trans.
  - intros s w0. apply issued_same_requests. reflexivity.
  - intros w0. apply issued_same_requests. reflexivity.
  - intros w0. apply issued_request. split; [reflexivity|]. exists "users/me". reflexivity.
  - intros page w0. apply issued_request. split; [reflexivity|]. exists "emoji". reflexivity.
  - intros id w0. apply issued_request. split; [reflexivity|].
    exists ("emoji/" +:+ py_format env id +:+ "/image"). reflexivity.
  - intros w0. apply issued_same_requests. reflexivity.
  - intros c w0. apply issued_same_requests. reflexivity.
  - intros name r w0. apply issued_same_requests. reflexivity.
Qed.

(** X2: whatever the server and the disk do and however the run ends,
    [extract_emojis] only adds to the output, creates no directory but
    the destination, removes no directory and no file, and never
    un-sleeps. *)
Theorem extract_footprint (self : MattermostEmojiExtractor) (download_dir : string)
    (fuel : nat) (w w' : world) (o : outcome unit) :
  extract_emojis env fuel self download_dir w = (o, w') ->
  footprint download_dir w w'.
Proof.
  intros H.
  apply (extract_emojis_invariant env self download_dir (footprint download_dir)) in H;
    [exact H|..].
  - apply footprint_refl.
  - apply footprint_trans.
  - intros s w0. apply footprint_print.
  - intros w0. apply footprint_same; simpl; auto.
  - intros w0. apply footprint_same; simpl; auto.
  - intros page w0. apply footprint_same; simpl; auto.
  - intros id w0. apply footprint_same; simpl; auto.
  - intros w0. apply footprint_mkdir.
  - intros c w0. apply footprint_write.
  - intros name r w0. apply footprint_write.
Qed.

End Footprint.

(** The two-emoji run. *)
Lemma extract_requests_carry_token_witness :
  exists reqs,
    w_requests (snd (extract_emojis two_emoji_server 1
                       (__init__ "https://chat.example.org/" "token") "out" empty_world))
    = ([] ++ reqs)%list
    /\ Forall (fun r =>
         req_headers r = [("Authorization", "Bearer token");
                          ("Content-Type", "application/json")]
         /\ exists rest, req_url r = "https://chat.example.org" +:+ "/api/v4/" +:+ rest) reqs.
Proof.
  apply (extract_requests_carry_token two_emoji_server "https://chat.example.org/" "token"
           "out" 1 empty_world _ _ (surjective_pairing _)).
Defined.

(** The two-emoji run on a disk that already holds a file. *)
Lemma extract_footprint_witness :
  let w := set_files {["notes.txt" := "keep"]} empty_world in
  footprint "out" w (snd (extract_emojis two_emoji_server 1 example_extractor "out" w)).
Proof.
  intros w.
  apply (extract_footprint two_emoji_server example_extractor "out" 1 w _ _
           (surjective_pairing _)).
Defined.

(** ** The constructor *)

Lemma rstrip_slash_no_trailing (s : string) : endswith_slash (rstrip_slash s) = false.
Proof.
  induction s as [|c t IH]; [reflexivity|]. simpl.
  destruct (rstrip_slash t) as [|d t'].
  - destruct (Ascii.eqb c "/") eqn:E; [reflexivity | simpl; exact E].
  - exact IH.
Qed.

Lemma rstrip_slash_decompose (s : string) :
  exists k, s = rstrip_slash s +:+ str_repeat "/" k.
Proof.
  induction s as [|c t (k & IH)]; [exists 0; reflexivity|]. simpl.
  destruct (rstrip_slash t) as [|d t'].
  - destruct (Ascii.eqb_spec c "/") as [-> | Hc].
    + exists (S k). rewrite IH at 1. reflexivity.
    + exists k. rewrite IH at 1. reflexivity.
  - exists k. rewrite IH at 1. reflexivity.
Qed.

Lemma rstrip_slash_fixed (s : string) : endswith_slash s = false -> rstrip_slash s = s.
Proof.
  induction s as [|c t IH]; [reflexivity|]. intros H. simpl.
  destruct t as [|d t'].
  - simpl in H. simpl. rewrite H. reflexivity.
  - rewrite IH by exact H. reflexivity.
Qed.

(** X3: [__init__] stores the server URL without its trailing slashes:
    what it stores does not end in a slash, the URL given is what it
    stores followed by slashes only, and a URL with no trailing slash is
    stored as it is.  The token is stored unchanged and sent as
    [Bearer] token. *)
Theorem init_strips_trailing_slashes (url token : string) :
  let self := __init__ url token in
  endswith_slash (server_url self) = false
  /\ (exists k, url = server_url self +:+ str_repeat "/" k)
  /\ (endswith_slash url = false -> server_url self = url)
  /\ access_token self = token
  /\ headers self = [("Authorization", "Bearer " +:+ token);
                     ("Content-Type", "application/json")].
Proof.
  simpl. split; [apply rstrip_slash_no_trailing|].
  split; [apply rstrip_slash_decompose|].
  split; [apply rstrip_slash_fixed|]. split; reflexivity.
Qed.

(** A URL typed without a trailing slash. *)
Lemma init_strips_trailing_slashes_witness :
  server_url (__init__ "https://chat.example.org" "token") = "https://chat.example.org".
Proof.
  apply (init_strips_trailing_slashes "https://chat.example.org" "token"). reflexivity.
Defined.

(** ** Connecting and listing: the bodies the code does not expect *)

Section Bodies.

Context (env : Env) (self : MattermostEmojiExtractor).

(** X4: a 200 answer to the identity check whose body is a JSON object
    makes [test_connection] return true and print the [username] of the
    object, or [Unknown] when the object has none; a 200 answer whose
    body is any other JSON value makes it return false, with the
    [AttributeError] of [.get] printed. *)
Theorem test_connection_json_body (w : world) (r : response) (v : pyval) :
  http_get env w (identity_request self) = Responds r ->
  status_code r = 200%Z -> json r = inr v ->
  let w1 := record_request (identity_request self) w in
  (forall items, v = PDict items ->
     test_connection env self w
     = (Ret true,
        add_stdout (line ("✓ Connected successfully as: "
                          +:+ py_format env (default (PStr "Unknown")
                                               (dict_lookup items "username")))) w1))
  /\ ((forall items, v <> PDict items) ->
      test_connection env self w
      = (Ret false,
         add_stdout (line ("✗ Connection error: '" +:+ type_name v
                           +:+ "' object has no attribute 'get'")) w1)).
Proof.
  intros Hr Hs Hj w1. split.
  - intros items ->. rewrite test_connection_run, Hr, Hs, Hj. simpl.
    destruct (dict_lookup items "username"); reflexivity.
  - intros Hv. rewrite test_connection_run, Hr, Hs, Hj. simpl.
    destruct v; try reflexivity. exfalso. exact (Hv _ eq_refl).
Qed.

(** X5: a 200 answer to a page request whose body cannot be decoded is
    logged and taken for an empty page: [get_custom_emojis] returns the
    empty list and the loop of [get_all_custom_emojis] ends there with
    what it has. *)
Theorem list_page_undecodable_body (fuel : nat) (page : Z) (acc : list pyval) (w : world)
    (r : response) (msg : string) :
  http_get env w (page_request self page 200) = Responds r ->
  status_code r = 200%Z -> json r = inl msg ->
  let w1 := add_stdout (line ("Error fetching emojis: " +:+ msg))
              (record_request (page_request self page 200) w) in
  get_custom_emojis env self page 200 w = (Ret (PList []), w1)
  /\ get_all_loop env (S fuel) self page 200 acc w = (Ret acc, w1).
Proof.
  intros Hr Hs Hj w1.
  assert (Hget : get_custom_emojis env self page 200 w = (Ret (PList []), w1)).
  { rewrite get_custom_emojis_run, Hr, Hs, Hj. reflexivity. }
  split; [exact Hget|].
  rewrite (get_all_loop_list env self _ _ _ _ _ _ _ Hget). reflexivity.
Qed.

(** X6: a 200 page whose body is not an array.  A falsy body ([null],
    [false], 0, the empty string or object) ends the loop like an empty
    page.  A truthy body that cannot be iterated (a number, [true])
    makes [list.extend] raise a [TypeError] that nothing catches: it
    leaves [get_all_custom_emojis] and, after a successful connection
    test, [extract_emojis]. *)
Theorem list_all_body_not_an_array (v : pyval) :
  (forall w page, exists r,
     http_get env w (page_request self page 200) = Responds r
     /\ status_code r = 200%Z /\ json r = inr v) ->
  (py_truthy v = false ->
   forall fuel page acc w,
     get_all_loop env (S fuel) self page 200 acc w
     = (Ret acc, record_request (page_request self page 200) w))
  /\ (py_truthy v = true ->
      forall e, py_iter v = inl e ->
      (forall fuel w, fst (get_all_custom_emojis env (S fuel) self w) = Raise e)
      /\ (forall fuel download_dir w w2,
            mkdir_error env w download_dir = None ->
            test_connection env self (made_dir download_dir w) = (Ret true, w2) ->
            fst (extract_emojis env (S fuel) self download_dir w) = Raise e)).
Proof.
  intros Hserve.
  assert (Hget : forall w page,
            get_custom_emojis env self page 200 w
            = (Ret v, record_request (page_request self page 200) w)).
  { intros w page. destruct (Hserve w page) as (r & Hr & Hs & Hj).
    exact (get_custom_emojis_ok env self _ _ _ _ _ Hr Hs Hj). }
  split.
  - intros Hfalsy fuel page acc w. simpl.
    rewrite (run_bind_ret _ _ _ _ _ (Hget w page)), Hfalsy. reflexivity.
  - intros Htruthy e Hiter.
    assert (Hloop : forall fuel page acc w,
              get_all_loop env (S fuel) self page 200 acc w
              = (Raise e, record_request (page_request self page 200) w)).
    { intros fuel page acc w. simpl.
      rewrite (run_bind_ret _ _ _ _ _ (Hget w page)), Htruthy. simpl.
      rewrite Hiter. reflexivity. }
    assert (Hall : forall fuel w, fst (get_all_custom_emojis env (S fuel) self w) = Raise e).
    { intros fuel w. unfold get_all_custom_emojis.
      erewrite run_bind_ret by reflexivity.
      erewrite run_bind_raise by apply Hloop. reflexivity. }
    split; [exact Hall|].
    intros fuel download_dir w w2 Hm Hc.
    rewrite (extract_emojis_connected env self (S fuel) download_dir w _ Hm Hc).
    specialize (Hall fuel w2).
    destruct (get_all_custom_emojis env (S fuel) self w2) as [[l|e0|] w3];
      simpl in Hall; try discriminate.
    injection Hall as ->. reflexivity.
Qed.

(** X7: the loop has no page limit.  Against a server all of whose pages
    are full, [n] iterations issue the [n] requests for the pages 0 to
    [n - 1] and have not returned, for every [n]. *)
Theorem list_all_unbounded (pages : nat -> list pyval) (n : nat) (w : world) :
  (forall i, serves_page env self i (pages i) /\ length (pages i) = 200) ->
  exists w',
    get_all_loop env n self 0 200 [] w = (OutOfFuel, w')
    /\ w_requests w' = (w_requests w ++ page_requests self 0 n)%list
    /\ length (page_requests self 0 n) = n.
Proof.
  intros Hserve.
  destruct (get_all_loop_full_pages env self pages n 0 [] 0 w) as (w' & Hrun & Hreq & _).
  { intros i _. apply Hserve. }
  exists w'. rewrite Nat.add_0_r in Hrun. change (Z.of_nat 0) with 0%Z in Hrun.
  rewrite Hrun. split; [reflexivity|]. split; [exact Hreq|].
  unfold page_requests. rewrite length_map, length_seq. reflexivity.
Qed.

End Bodies.

(** A server that answers the identity check with a JSON object that has
    no [username]. *)
Lemma test_connection_json_body_witness :
  let env := env_of (fun _ _ => Responds (ok_json (PDict [("id", PStr "u1")]))) in
  test_connection env example_extractor empty_world
  = (Ret true, add_stdout (line "✓ Connected successfully as: Unknown")
                 (record_request (identity_request example_extractor) empty_world)).
Proof.
  intros env.
  exact (proj1 (test_connection_json_body env example_extractor empty_world
                  (ok_json (PDict [("id", PStr "u1")])) _ eq_refl eq_refl eq_refl)
           _ eq_refl).
Defined.

(** A proxy that answers every page request with an HTML page. *)
Lemma list_page_undecodable_body_witness :
  let env := env_of (fun _ _ => Responds (plain_response 200 "<html></html>")) in
  let w1 := add_stdout (line "Error fetching emojis: Expecting value: line 1 column 1 (char 0)")
              (record_request (page_request example_extractor 0 200) empty_world) in
  get_custom_emojis env example_extractor 0 200 empty_world = (Ret (PList []), w1)
  /\ get_all_loop env 1 example_extractor 0 200 [] empty_world = (Ret [], w1).
Proof.
  intros env.
  exact (list_page_undecodable_body env example_extractor 0 0%Z [] empty_world
           (plain_response 200 "<html></html>") _ eq_refl eq_refl eq_refl).
Defined.

(** A listing that answers [null], and one that answers 5. *)
Lemma list_all_body_not_an_array_witness :
  get_all_loop (body_server PNone) 1 example_extractor 0 200 [] empty_world
  = (Ret [], record_request (page_request example_extractor 0 200) empty_world)
  /\ fst (get_all_custom_emojis (body_server (PInt 5)) 1 example_extractor empty_world)
     = Raise (TypeError "'int' object is not iterable")
  /\ fst (extract_emojis (body_server (PInt 5)) 1 example_extractor "out" empty_world)
     = Raise (TypeError "'int' object is not iterable").
Proof.
  assert (Hserve : forall v w page, exists r,
            http_get (body_server v) w (page_request example_extractor page 200) = Responds r
            /\ status_code r = 200%Z /\ json r = inr v).
  { intros v w page. exists (ok_json v). repeat split. }
  split; [|split].
  - exact (proj1 (list_all_body_not_an_array (body_server PNone) example_extractor PNone
                    (Hserve PNone)) eq_refl 0 0%Z [] empty_world).
  - exact (proj1 (proj2 (list_all_body_not_an_array (body_server (PInt 5)) example_extractor
                           (PInt 5) (Hserve (PInt 5))) eq_refl _ eq_refl) 0 empty_world).
  - exact (proj2 (proj2 (list_all_body_not_an_array (body_server (PInt 5)) example_extractor
                           (PInt 5) (Hserve (PInt 5))) eq_refl _ eq_refl)
             0 "out" empty_world _ eq_refl eq_refl).
Defined.

(** A server whose every page holds the same 200 records. *)
Lemma list_all_unbounded_witness :
  let page := repeat (emoji_record "abc" "partyparrot") 200 in
  exists w',
    get_all_loop (body_server (PList page)) 4 example_extractor 0 200 [] empty_world
    = (OutOfFuel, w')
    /\ w_requests w' = ([] ++ page_requests example_extractor 0 4)%list
    /\ length (page_requests example_extractor 0 4) = 4.
Proof.
  intros page.
  apply (list_all_unbounded (body_server (PList page)) example_extractor (fun _ => page) 4
           empty_world).
  intros i. split; [|reflexivity].
  intros w. exists (ok_json (PList page)). repeat split.
Defined.

(** ** Pauses, tallies and whole runs *)

Section WholeRuns.

Context (env : Env) (self : MattermostEmojiExtractor).

Lemma get_all_loop_full_pages_sleeps (pages : nat -> list pyval) (j : nat) :
  forall (p : nat) (acc : list pyval) (fuel : nat) (w : world),
  (forall i, p <= i < p + j -> serves_page env self i (pages i) /\ length (pages i) = 200) ->
  exists w',
    get_all_loop env (j + fuel) self (Z.of_nat p) 200 acc w
    = get_all_loop env fuel self (Z.of_nat (p + j)) 200
        (acc ++ concat (map pages (seq p j)))%list w'
    /\ w_requests w' = (w_requests w ++ page_requests self p j)%list
    /\ w_files w' = w_files w /\ w_dirs w' = w_dirs w
    /\ w_sleeps w' = w_sleeps w + j.
Proof.
  induction j as [|j IH]; intros p acc fuel w Hserve.
  - exists w. unfold page_requests. simpl.
    rewrite !app_nil_r, !Nat.add_0_r. auto.
  - destruct (Hserve p ltac:(lia)) as [Hp Hlen].
    destruct (Hp w) as (r & Hr & Hs & Hj).
    pose proof (get_custom_emojis_ok env self _ _ _ _ _ Hr Hs Hj) as Hget.
    change (S j + fuel) with (S (j + fuel)).
    rewrite (get_all_loop_full env self _ _ _ _ _ _ Hget Hlen).
    replace (Z.of_nat p + 1)%Z with (Z.of_nat (S p)) by lia.
    match goal with
    | |- context [get_all_loop _ _ _ _ _ _ ?w0] =>
        destruct (IH (S p) (acc ++ pages p)%list fuel w0)
          as (w' & Hrun & Hreq & Hf & Hd & Hsl)
    end.
    { intros i Hi. apply Hserve. lia. }
    exists w'. rewrite Hrun. split; [|split; [|split; [|split]]].
    + replace (S p + j) with (p + S j) by lia.
      simpl. rewrite <- app_assoc. reflexivity.
    + rewrite Hreq. unfold page_requests. simpl. rewrite <- app_assoc. reflexivity.
    + rewrite Hf. reflexivity.
    + rewrite Hd. reflexivity.
    + rewrite Hsl. simpl. lia.
Qed.

(** The listing of a finite collection, with everything it does. *)
Lemma get_all_custom_emojis_collection (coll : list pyval) (fuel : nat) (w : world) :
  serves_collection env self coll ->
  length coll / 200 < fuel ->
  exists w',
    get_all_custom_emojis env fuel self w = (Ret coll, w')
    /\ w_requests w' = (w_requests w ++ page_requests self 0 (length coll / 200 + 1))%list
    /\ w_files w' = w_files w /\ w_dirs w' = w_dirs w
    /\ w_sleeps w' = w_sleeps w + length coll / 200
    /\ last (w_stdout w')
       = Some (line ("✓ Total custom emojis found: " +:+ str_of_nat (length coll))).
Proof.
  intros Hserve Hfuel.
  set (q := length coll / 200) in *.
  assert (Hq1 : 200 * q <= length coll) by apply Nat.Div0.mul_div_le.
  assert (Hq2 : length coll < 200 * S q) by (apply Nat.mul_succ_div_gt; lia).
  set (pages := fun i => take 200 (drop (200 * i) coll)).
  destruct (get_all_loop_full_pages_sleeps pages q 0 [] (fuel - q)
              (add_stdout (line "Fetching custom emojis...") w))
    as (w1 & Hrun & Hreq & Hf & Hd & Hsl).
  { intros i Hi. split; [apply Hserve|].
    unfold pages. rewrite length_take, length_drop. lia. }
  destruct (Hserve q w1) as (r & Hr & Hs & Hj).
  pose proof (get_custom_emojis_ok env self _ _ _ _ _ Hr Hs Hj) as Hget.
  destruct (fuel - q) as [|fuel'] eqn:Hfq; [lia|].
  pose proof (get_all_loop_list env self fuel' _ _ (take (200 * q) coll) _ _ _ Hget) as Hlast.
  assert (Hshort : length (take 200 (drop (200 * q) coll)) < 200)
    by (rewrite length_take, length_drop; lia).
  assert (Hwhole : (take (200 * q) coll ++ take 200 (drop (200 * q) coll))%list = coll)
    by (rewrite take_take_drop; apply take_ge; lia).
  assert (Hloop : exists w2,
            get_all_loop env fuel self 0 200 []
              (add_stdout (line "Fetching custom emojis...") w) = (Ret coll, w2)
            /\ w_requests w2 = w_requests (record_request (page_request self (Z.of_nat q) 200) w1)
            /\ w_files w2 = w_files w1 /\ w_dirs w2 = w_dirs w1
            /\ w_sleeps w2 = w_sleeps w1).
  { change (Z.of_nat 0) with 0%Z in Hrun.
    replace fuel with (q + S fuel') by lia. rewrite Hrun.
    rewrite Nat.add_0_l, app_nil_l. unfold pages. rewrite concat_pages, Hlast.
    destruct (take 200 (drop (200 * q) coll)) as [|x l] eqn:Hpage.
    - rewrite app_nil_r in Hwhole. rewrite Hwhole. eexists. split; [reflexivity|]. auto.
    - cbv zeta.
      replace (Z.of_nat (length (x :: l)) <? 200)%Z with true
        by (symmetry; apply Z.ltb_lt; lia).
      rewrite Hwhole. eexists. split; [reflexivity|]. auto. }
  destruct Hloop as (w2 & Hloop & Hreq2 & Hf2 & Hd2 & Hsl2).
  eexists. split; [apply get_all_custom_emojis_run; exact Hloop|].
  simpl. rewrite Hreq2, Hf2, Hd2, Hsl2, Hf, Hd, Hsl. simpl. rewrite Hreq. simpl.
  split; [|split; [reflexivity|split; [reflexivity|split; [reflexivity|apply last_snoc]]]].
  unfold page_requests. replace (q + 1) with (S q) by lia.
  rewrite seq_S, map_app, <- app_assoc. reflexivity.
Qed.

Lemma download_emoji_image_sleeps (emoji_id emoji_name : pyval) (download_dir : string)
    (w w' : world) (o : outcome bool) :
  download_emoji_image env self emoji_id emoji_name download_dir w = (o, w') ->
  w_sleeps w' = w_sleeps w.
Proof.
  apply (download_emoji_image_invariant env self download_dir
           (fun w w' => w_sleeps w' = w_sleeps w)); try reflexivity.
  intros w1 w2 w3 H12 H23. congruence.
Qed.

Lemma download_emoji_image_ok (emoji_id emoji_name : pyval) (download_dir : string)
    (w : world) :
  images_ok env self download_dir ->
  fst (download_emoji_image env self emoji_id emoji_name download_dir w) = Ret true.
Proof.
  intros Hok. destruct (Hok w emoji_id emoji_name) as (r & Hr & Hs & He & Ho).
  destruct (download_emoji_image_writes env self emoji_id emoji_name download_dir w r Hr Hs Ho)
    as (w' & Hrun & _).
  rewrite Hrun, He. reflexivity.
Qed.

Lemma download_emoji_image_fail (emoji_id emoji_name : pyval) (download_dir : string)
    (w : world) :
  request_fails env w (image_request env self emoji_id) ->
  exists w',
    download_emoji_image env self emoji_id emoji_name download_dir w = (Ret false, w')
    /\ w_files w' = w_files w.
Proof.
  rewrite download_emoji_image_run.
  intros [[msg H] | (r & H & Hs)]; rewrite H.
  - eexists. split; reflexivity.
  - destruct (Z.eqb_spec (status_code r) 200); [contradiction|].
    eexists. split; reflexivity.
Qed.

(** The download loop against records with an id and a name: one pause
    per record, and the count when all images arrive or none does. *)
Lemma download_each_tally (download_dir : string) (total : nat) (emojis : list pyval) :
  forall (i success_count : nat) (w : world),
  Forall has_id_name emojis ->
  exists n w',
    download_each env self download_dir total emojis i success_count w = (Ret n, w')
    /\ w_sleeps w' = w_sleeps w + length emojis
    /\ (images_ok env self download_dir -> n = success_count + length emojis)
    /\ (images_fail env self -> n = success_count /\ w_files w' = w_files w).
Proof.
  induction emojis as [|emoji rest IH]; intros i success_count w Hall.
  - exists success_count, w. simpl. repeat split; lia.
  - inversion Hall as [|? ? Hemoji Hrest]; subst.
    pose proof (has_id_name_id _ Hemoji) as Hid.
    destruct Hemoji as (id & name & _ & Hname).
    simpl. rewrite Hid, Hname. run.
    match goal with
    | |- context [download_emoji_image ?e ?s ?a ?b ?d ?w0] =>
        destruct (download_emoji_image_total e s a b d w0) as (ok & w1 & Hrun & _);
        pose proof (download_emoji_image_sleeps a b d w0 _ _ Hrun) as Hsl1;
        pose proof (download_emoji_image_ok a b d w0) as Hok1;
        pose proof (download_emoji_image_fail a b d w0) as Hfail1
    end.
    rewrite Hrun. rewrite Hrun in Hok1. simpl in Hsl1, Hok1.
    destruct ok; simpl.
    + match goal with
      | |- context [download_each _ _ _ _ _ ?i' ?s' ?w0] =>
          destruct (IH i' s' w0 Hrest) as (n & w' & Hrest_run & Hsl & Hcount & Hnone)
      end.
      exists n, w'. rewrite Hrest_run. split; [reflexivity|].
      simpl in Hsl. split; [lia|]. split.
      * intros Hok. specialize (Hcount Hok). lia.
      * intros Hfail. destruct (Hfail1 (Hfail _ _)) as (w0 & Hrun0 & _).
        rewrite Hrun in Hrun0. discriminate.
    + match goal with
      | |- context [download_each _ _ _ _ _ ?i' ?s' ?w0] =>
          destruct (IH i' s' w0 Hrest) as (n & w' & Hrest_run & Hsl & Hcount & Hnone)
      end.
      exists n, w'. rewrite Hrest_run. split; [reflexivity|].
      simpl in Hsl. split; [lia|]. split.
      * intros Hok. specialize (Hok1 Hok). discriminate.
      * intros Hfail. destruct (Hnone Hfail) as (-> & Hfiles).
        split; [reflexivity|]. rewrite Hfiles. simpl.
        destruct (Hfail1 (Hfail _ _)) as (w0 & Hrun0 & Hfiles0).
        rewrite Hrun in Hrun0. injection Hrun0 as <-. exact Hfiles0.
Qed.

(** The download loop stops at the first record without an id or a
    name: the records before it were requested, the rest is not. *)
Lemma download_each_raises (download_dir : string) (total : nat) (good : list pyval)
    (bad : pyval) (rest : list pyval) (e : exn) :
  forall (i success_count : nat) (w : world),
  Forall has_id_name good -> lacks_id_or_name bad e ->
  exists w',
    download_each env self download_dir total (good ++ bad :: rest) i success_count w
    = (Raise e, w')
    /\ w_requests w' = (w_requests w ++ image_requests env self good)%list.
Proof.
  induction good as [|emoji good IH]; intros i success_count w Hall Hbad.
  - exists w. simpl. rewrite app_nil_r. split; [|reflexivity].
    destruct Hbad as [Hid | (id & Hid & Hname)].
    + rewrite Hid. reflexivity.
    + rewrite Hid, Hname. reflexivity.
  - inversion Hall as [|? ? Hemoji Hgood]; subst.
    pose proof (has_id_name_id _ Hemoji) as Hid.
    destruct Hemoji as (id & name & _ & Hname).
    simpl. rewrite Hid, Hname. run.
    match goal with
    | |- context [download_emoji_image ?e0 ?s ?a ?b ?d ?w0] =>
        destruct (download_emoji_image_total e0 s a b d w0) as (ok & w1 & Hrun & Hreq & _)
    end.
    rewrite Hrun.
    destruct ok; simpl;
      match goal with
      | |- context [download_each _ _ _ _ _ ?i' ?s' ?w0] =>
          destruct (IH i' s' w0 Hgood Hbad) as (w' & Hrest_run & Hreq')
      end;
      exists w'; rewrite Hrest_run; (split; [reflexivity|]);
      simpl in Hreq'; rewrite Hreq', Hreq; simpl; rewrite <- app_assoc; reflexivity.
Qed.

End WholeRuns.

Section WholeRunTheorems.

Context (env : Env) (self : MattermostEmojiExtractor).

(** X8: against a server that holds a finite collection,
    [get_all_custom_emojis] pauses once after every full page, which is
    one time fewer than it issues requests, and the last line it prints
    gives the size of the collection. *)
Theorem list_all_pauses_between_pages (coll : list pyval) (fuel : nat) (w : world) :
  serves_collection env self coll ->
  length coll / 200 < fuel ->
  exists w',
    get_all_custom_emojis env fuel self w = (Ret coll, w')
    /\ w_sleeps w' = w_sleeps w + length coll / 200
    /\ length (w_requests w') = length (w_requests w) + (length coll / 200 + 1)
    /\ last (w_stdout w')
       = Some (line ("✓ Total custom emojis found: " +:+ str_of_nat (length coll))).
Proof.
  intros Hserve Hfuel.
  destruct (get_all_custom_emojis_collection env self coll fuel w Hserve Hfuel)
    as (w' & Hrun & Hreq & _ & _ & Hsl & Hlast).
  exists w'. split; [exact Hrun|]. split; [exact Hsl|]. split; [|exact Hlast].
  rewrite Hreq, length_app. unfold page_requests. rewrite length_map, length_seq.
  reflexivity.
Qed.

(** X9: however it ends, [get_all_custom_emojis] writes no file, creates
    no directory and issues no streamed request: it requests no image. *)
Theorem list_all_touches_nothing (fuel : nat) (w w' : world) (o : outcome (list pyval)) :
  get_all_custom_emojis env fuel self w = (o, w') ->
  w_files w' = w_files w /\ w_dirs w' = w_dirs w
  /\ exists reqs, w_requests w' = (w_requests w ++ reqs)%list
                 /\ Forall (fun r => req_stream r = false) reqs.
Proof. exact (get_all_custom_emojis_listing_only env self fuel w w' o). Qed.

(** X10: with records that have an id and a name, [extract_emojis]
    reports a count between 0 and the number of records and pauses once
    per record; the count is the number of records when every image
    arrives and 0 when every image request fails, and the run returns
    normally in both cases. *)
Theorem extract_tally (fuel : nat) (download_dir : string) (w w2 w3 : world)
    (emojis : list pyval) :
  mkdir_error env w download_dir = None ->
  test_connection env self (made_dir download_dir w) = (Ret true, w2) ->
  get_all_custom_emojis env fuel self w2 = (Ret emojis, w3) ->
  emojis <> [] ->
  open_error env w3 (metadata_path download_dir) = None ->
  Forall has_id_name emojis ->
  exists n w4,
    extract_emojis env fuel self download_dir w
    = (Ret tt, reported env download_dir n (length emojis) w4)
    /\ n <= length emojis
    /\ w_sleeps w4 = w_sleeps w3 + length emojis
    /\ (images_ok env self download_dir -> n = length emojis)
    /\ (images_fail env self -> n = 0).
Proof.
  intros Hm Hc Hg Hne Ho Hall.
  rewrite (extract_emojis_connected env self fuel download_dir w _ Hm Hc), Hg.
  destruct emojis as [|emoji rest]; [contradiction|].
  rewrite Ho.
  destruct (download_each_tally env self download_dir (length (emoji :: rest)) (emoji :: rest)
              1 0 (persisted env download_dir (emoji :: rest) w3) Hall)
    as (n & w4 & Hrun & Hsl & Hok & Hfail).
  destruct (download_each_run env self download_dir (length (emoji :: rest)) (emoji :: rest)
              1 0 (persisted env download_dir (emoji :: rest) w3) Hall)
    as (n' & w4' & Hrun' & _ & _ & Hbound).
  rewrite Hrun in Hrun'. injection Hrun' as <- <-.
  rewrite Hrun. exists n, w4. split; [reflexivity|]. split; [lia|].
  split; [exact Hsl|]. split; [exact Hok|].
  intros Hf. exact (proj1 (Hfail Hf)).
Qed.

(** X11: a record without an id or a name stops [extract_emojis] with
    the exception of the lookup: the metadata of all records is on disk
    by then, the images of the records before it were requested, and no
    later image is. *)
Theorem extract_missing_key (fuel : nat) (download_dir : string) (w w2 w3 : world)
    (good : list pyval) (bad : pyval) (rest : list pyval) (e : exn) :
  mkdir_error env w download_dir = None ->
  test_connection env self (made_dir download_dir w) = (Ret true, w2) ->
  get_all_custom_emojis env fuel self w2 = (Ret (good ++ bad :: rest)%list, w3) ->
  open_error env w3 (metadata_path download_dir) = None ->
  Forall has_id_name good ->
  lacks_id_or_name bad e ->
  exists w',
    extract_emojis env fuel self download_dir w = (Raise e, w')
    /\ w_requests w' = (w_requests w3 ++ image_requests env self good)%list
    /\ w_files w' !! metadata_path download_dir
       = Some (json_dumps env (PList (good ++ bad :: rest))).
Proof.
  intros Hm Hc Hg Ho Hgood Hbad.
  rewrite (extract_emojis_connected env self fuel download_dir w _ Hm Hc), Hg.
  destruct (download_each_raises env self download_dir (length (good ++ bad :: rest))
              good bad rest e 1 0 (persisted env download_dir (good ++ bad :: rest) w3)
              Hgood Hbad) as (w' & Hrun & Hreq).
  destruct (good ++ bad :: rest)%list as [|x l] eqn:Hlist.
  { destruct good; discriminate. }
  rewrite Ho, Hrun. exists w'. split; [reflexivity|]. split; [exact Hreq|].
  apply download_each_keeps with (path := metadata_path download_dir) in Hrun.
  2: { apply metadata_path_last_char. }
  rewrite Hrun. simpl. apply lookup_insert_eq.
Qed.

(** X12: a whole run.  With a destination that can be created, an
    identity check answered by a JSON object, a finite collection of
    records with id and name, and a metadata file that can be opened,
    [extract_emojis] returns normally after the identity request, the
    page requests and one image request per record, in this order; the
    metadata file holds the whole collection, the destination
    directory exists, and the run has paused once per full page and once
    per record. *)
Theorem extract_whole_run (coll : list pyval) (fuel : nat) (download_dir : string)
    (w : world) :
  mkdir_error env w download_dir = None ->
  (forall w0, exists r items,
     http_get env w0 (identity_request self) = Responds r
     /\ status_code r = 200%Z /\ json r = inr (PDict items)) ->
  serves_collection env self coll ->
  coll <> [] ->
  Forall has_id_name coll ->
  (forall w0, open_error env w0 (metadata_path download_dir) = None) ->
  length coll / 200 < fuel ->
  exists w',
    extract_emojis env fuel self download_dir w = (Ret tt, w')
    /\ w_requests w'
       = (w_requests w ++ identity_request self
            :: page_requests self 0 (length coll / 200 + 1)
            ++ image_requests env self coll)%list
    /\ w_files w' !! metadata_path download_dir = Some (json_dumps env (PList coll))
    /\ w_dirs w' = {[download_dir]} ∪ w_dirs w
    /\ w_sleeps w' = w_sleeps w + length coll / 200 + length coll.
Proof.
  intros Hm Hid Hserve Hne Hall Hopen Hfuel.
  destruct (Hid (made_dir download_dir w)) as (r & items & Hr & Hs & Hj).
  pose proof (test_connection_run env self (made_dir download_dir w)) as Hc.
  rewrite Hr, Hs, Hj in Hc. simpl in Hc.
  assert (Hc' : exists w2,
            test_connection env self (made_dir download_dir w) = (Ret true, w2)
            /\ w_requests w2 = (w_requests w ++ [identity_request self])%list
            /\ w_files w2 = w_files w /\ w_dirs w2 = {[download_dir]} ∪ w_dirs w
            /\ w_sleeps w2 = w_sleeps w).
  { destruct (dict_lookup items "username"); eexists; (split; [exact Hc|]); simpl; auto. }
  clear Hc. destruct Hc' as (w2 & Hc & Hreq2 & Hf2 & Hd2 & Hsl2).
  destruct (get_all_custom_emojis_collection env self coll fuel w2 Hserve Hfuel)
    as (w3 & Hg & Hreq3 & Hf3 & Hd3 & Hsl3 & _).
  rewrite (extract_emojis_connected env self fuel download_dir w _ Hm Hc), Hg.
  destruct coll as [|emoji rest]; [contradiction|].
  rewrite Hopen.
  set (coll := emoji :: rest) in *.
  destruct (download_each_run env self download_dir (length coll) coll
              1 0 (persisted env download_dir coll w3) Hall)
    as (n & w4 & Hrun & Hreq4 & Hd4 & _).
  destruct (download_each_tally env self download_dir (length coll) coll
              1 0 (persisted env download_dir coll w3) Hall)
    as (n' & w4' & Hrun' & Hsl4 & _).
  rewrite Hrun in Hrun'. injection Hrun' as <- <-.
  rewrite Hrun. eexists. split; [reflexivity|].
  unfold persisted in Hreq4, Hd4, Hsl4. unfold reported.
  cbn [w_requests w_files w_dirs w_sleeps add_stdout set_files] in Hreq4, Hd4, Hsl4 |- *.
  split; [|split; [|split]].
  - rewrite Hreq4, Hreq3, Hreq2, <- !app_assoc. reflexivity.
  - apply download_each_keeps with (path := metadata_path download_dir) in Hrun.
    2: { apply metadata_path_last_char. }
    rewrite Hrun. simpl. apply lookup_insert_eq.
  - rewrite Hd4, Hd3, Hd2. reflexivity.
  - rewrite Hsl4, Hsl3, Hsl2. lia.
Qed.

End WholeRunTheorems.

(** A collection of 450 records: three requests, two pauses. *)
Lemma list_all_pauses_between_pages_witness :
  let coll := repeat (emoji_record "abc" "partyparrot") 450 in
  exists w',
    get_all_custom_emojis (collection_server coll) 3 example_extractor empty_world
    = (Ret coll, w')
    /\ w_sleeps w' = 0 + 450 / 200
    /\ length (w_requests w') = 0 + (450 / 200 + 1)
    /\ last (w_stdout w') = Some (line ("✓ Total custom emojis found: " +:+ str_of_nat 450)).
Proof.
  intros coll.
  apply (list_all_pauses_between_pages (collection_server coll) example_extractor coll 3
           empty_world).
  - apply collection_server_serves.
  - vm_compute. lia.
Defined.

(** A listing that raises. *)
Lemma list_all_touches_nothing_witness :
  let run := get_all_custom_emojis (body_server (PInt 5)) 1 example_extractor empty_world in
  w_files (snd run) = ∅ /\ w_dirs (snd run) = ∅
  /\ exists reqs, w_requests (snd run) = ([] ++ reqs)%list
                 /\ Forall (fun r => req_stream r = false) reqs.
Proof.
  intros run.
  apply (list_all_touches_nothing (body_server (PInt 5)) example_extractor 1 empty_world
           _ _ (surjective_pairing run)).
Defined.

Lemma failing_after_images_ok (pages : list (list pyval)) (self : MattermostEmojiExtractor)
    (download_dir : string) :
  images_ok (failing_after pages) self download_dir.
Proof.
  intros w emoji_id emoji_name. exists (image_response "image/png" ["PNG"]).
  repeat split.
Qed.

Lemma collection_server_images_fail (coll : list pyval) (self : MattermostEmojiExtractor) :
  images_fail (collection_server coll) self.
Proof.
  intros w emoji_id. right. exists (plain_response 404 "").
  split; [reflexivity | simpl; lia].
Qed.

(** Three records: every image arrives from one server, none from the
    other. *)
Lemma extract_tally_witness :
  let coll := repeat (emoji_record "abc" "partyparrot") 3 in
  (exists w4,
     extract_emojis (failing_after [coll]) 1 example_extractor "out" empty_world
     = (Ret tt, reported (failing_after [coll]) "out" 3 3 w4))
  /\ (exists w4,
        extract_emojis (collection_server coll) 1 example_extractor "out" empty_world
        = (Ret tt, reported (collection_server coll) "out" 0 3 w4)).
Proof.
  intros coll. split.
  - assert (H : exists w3 n w4,
              extract_emojis (failing_after [coll]) 1 example_extractor "out" empty_world
              = (Ret tt, reported (failing_after [coll]) "out" n (length coll) w4)
              /\ n <= length coll
              /\ w_sleeps w4 = w_sleeps w3 + length coll
              /\ (images_ok (failing_after [coll]) example_extractor "out" -> n = length coll)
              /\ (images_fail (failing_after [coll]) example_extractor -> n = 0)).
    { eexists.
      eapply (extract_tally (failing_after [coll]) example_extractor 1 "out" empty_world
                _ _ coll);
        [reflexivity | reflexivity | vm_compute; reflexivity | discriminate | reflexivity
        | apply Forall_has_id_name_repeat]. }
    destruct H as (w3 & n & w4 & Hrun & _ & _ & Hok & _).
    exists w4. rewrite Hrun, (Hok (failing_after_images_ok _ _ _)). reflexivity.
  - assert (H : exists w3 n w4,
              extract_emojis (collection_server coll) 1 example_extractor "out" empty_world
              = (Ret tt, reported (collection_server coll) "out" n (length coll) w4)
              /\ n <= length coll
              /\ w_sleeps w4 = w_sleeps w3 + length coll
              /\ (images_ok (collection_server coll) example_extractor "out"
                  -> n = length coll)
              /\ (images_fail (collection_server coll) example_extractor -> n = 0)).
    { eexists.
      eapply (extract_tally (collection_server coll) example_extractor 1 "out" empty_world
                _ _ coll);
        [reflexivity | reflexivity | vm_compute; reflexivity | discriminate | reflexivity
        | apply Forall_has_id_name_repeat]. }
    destruct H as (w3 & n & w4 & Hrun & _ & _ & _ & Hfail).
    exists w4. rewrite Hrun, (Hfail (collection_server_images_fail _ _)). reflexivity.
Defined.

(** The second of three records has no id. *)
Lemma extract_missing_key_witness :
  let good := [emoji_record "abc" "partyparrot"] in
  let bad := PDict [("name", PStr "nameless")] in
  let rest := [emoji_record "xyz" "zebra"] in
  let env := collection_server (good ++ bad :: rest) in
  exists w3 w',
    extract_emojis env 1 example_extractor "out" empty_world = (Raise (KeyError "id"), w')
    /\ w_requests w' = (w_requests w3 ++ image_requests env example_extractor good)%list
    /\ w_files w' !! metadata_path "out" = Some (json_dumps env (PList (good ++ bad :: rest))).
Proof.
  intros good bad rest env. eexists.
  eapply (extract_missing_key env example_extractor 1 "out" empty_world _ _ good bad rest).
  - reflexivity.
  - reflexivity.
  - vm_compute. reflexivity.
  - reflexivity.
  - repeat constructor. apply has_id_name_record.
  - left. reflexivity.
Defined.

(** A collection of 201 records: two pages. *)
Lemma extract_whole_run_witness :
  let coll := repeat (emoji_record "abc" "partyparrot") 201 in
  let env := collection_server coll in
  exists w',
    extract_emojis env 2 example_extractor "out" empty_world = (Ret tt, w')
    /\ w_requests w'
       = ([] ++ identity_request example_extractor
            :: page_requests example_extractor 0 (length coll / 200 + 1)
            ++ image_requests env example_extractor coll)%list
    /\ w_files w' !! metadata_path "out" = Some (json_dumps env (PList coll))
    /\ w_dirs w' = {["out"]} ∪ ∅
    /\ w_sleeps w' = 0 + length coll / 200 + length coll.
Proof.
  intros coll env.
  apply (extract_whole_run env example_extractor coll 2 "out" empty_world).
  - reflexivity.
  - intros w0. exists (ok_json (PDict [("username", PStr "bot")])), [("username", PStr "bot")].
    repeat split.
  - apply collection_server_serves.
  - discriminate.
  - apply Forall_has_id_name_repeat.
  - intros w0. reflexivity.
  - vm_compute. lia.
Defined.

(** ** Downloads that fail, collide or leave the directory *)

Lemma startswith_slash_append (n x : string) :
  startswith "/" n = true -> startswith "/" (n +:+ x) = true.
Proof.
  destruct n as [|c n]; [discriminate|]. rewrite append_cons. simpl.
  rewrite !andb_true_r. auto.
Qed.

Lemma extension_of_no_slash (ct : string) : startswith "/" (extension_of ct) = false.
Proof.
  unfold extension_of.
  destruct (str_in "png" ct); [reflexivity|].
  destruct (str_in "gif" ct); [reflexivity|].
  destruct (str_in "jpeg" ct || str_in "jpg" ct)%bool; reflexivity.
Qed.

Section Downloads.

Context (env : Env) (self : MattermostEmojiExtractor).

(** X13: a download whose request fails (transport failure, or a status
    other than 200), or whose file cannot be opened, returns false after
    one printed line and leaves every file as it was. *)
Theorem download_failure_leaves_files (emoji_id emoji_name : pyval)
    (download_dir : string) (w : world) :
  (request_fails env w (image_request env self emoji_id) ->
   exists w',
     download_emoji_image env self emoji_id emoji_name download_dir w = (Ret false, w')
     /\ w_files w' = w_files w
     /\ exists msg, w_stdout w' = (w_stdout w ++ [line msg])%list)
  /\ (forall r msg,
        http_get env w (image_request env self emoji_id) = Responds r ->
        status_code r = 200%Z ->
        open_error env (record_request (image_request env self emoji_id) w)
          (image_path env download_dir emoji_name r) = Some msg ->
        exists w',
          download_emoji_image env self emoji_id emoji_name download_dir w = (Ret false, w')
          /\ w_files w' = w_files w
          /\ w_stdout w'
             = (w_stdout w ++ [line ("Error downloading " +:+ py_format env emoji_name
                                     +:+ ": " +:+ msg)])%list).
Proof.
  split.
  - rewrite download_emoji_image_run.
    intros [[msg H] | (r & H & Hs)]; rewrite H.
    + eexists. split; [reflexivity|]. split; [reflexivity|]. simpl. eauto.
    + destruct (Z.eqb_spec (status_code r) 200); [contradiction|].
      eexists. split; [reflexivity|]. split; [reflexivity|]. simpl. eauto.
  - intros r msg Hr Hs Ho. rewrite download_emoji_image_run, Hr, Hs. simpl.
    rewrite Ho. eexists. split; [reflexivity|]. split; reflexivity.
Qed.

(** X14: when the stream breaks after the file was opened, the download
    returns false and prints the error, and the chunks received before
    the break stay on disk under the name of the image. *)
Theorem download_broken_stream (emoji_id emoji_name : pyval) (download_dir : string)
    (w : world) (r : response) (msg : string) :
  http_get env w (image_request env self emoji_id) = Responds r ->
  status_code r = 200%Z ->
  open_error env (record_request (image_request env self emoji_id) w)
    (image_path env download_dir emoji_name r) = None ->
  iter_error r = Some msg ->
  exists w',
    download_emoji_image env self emoji_id emoji_name download_dir w = (Ret false, w')
    /\ w_files w' !! image_path env download_dir emoji_name r = Some (body r)
    /\ last (w_stdout w')
       = Some (line ("Error downloading " +:+ py_format env emoji_name +:+ ": " +:+ msg)).
Proof.
  intros Hr Hs Ho He. rewrite download_emoji_image_run, Hr, Hs. simpl.
  rewrite Ho, He. eexists. split; [reflexivity|]. simpl.
  split; [apply lookup_insert_eq | apply last_snoc].
Qed.

(** X15: where the image goes.  A name that starts with a slash sends
    the file to the absolute path name plus extension, outside the
    destination directory; any other name puts it inside, after a slash
    unless the directory is empty or already ends in one. *)
Theorem download_path (emoji_id : pyval) (n download_dir : string) (w : world)
    (r : response) :
  let file := n +:+ extension_of (default "" (content_type r)) in
  let path := if startswith "/" n then file
              else if (String.eqb download_dir "" || endswith_slash download_dir)%bool
                   then download_dir +:+ file
                   else download_dir +:+ "/" +:+ file in
  http_get env w (image_request env self emoji_id) = Responds r ->
  status_code r = 200%Z ->
  open_error env (record_request (image_request env self emoji_id) w) path = None ->
  exists b w',
    download_emoji_image env self emoji_id (PStr n) download_dir w = (Ret b, w')
    /\ w_files w' = <[path := body r]> (w_files w).
Proof.
  intros file path Hr Hs Ho.
  assert (Hpath : image_path env download_dir (PStr n) r = path).
  { unfold image_path, os_path_join, path, file. simpl py_format.
    destruct (startswith "/" n) eqn:En.
    - rewrite (startswith_slash_append _ _ En). reflexivity.
    - assert (Hfile : startswith "/" (n +:+ extension_of (default "" (content_type r)))
                      = false).
      { destruct n as [|c n'].
        - apply extension_of_no_slash.
        - rewrite append_cons. simpl. simpl in En.
          rewrite andb_true_r in *. exact En. }
      rewrite Hfile. reflexivity. }
  rewrite <- Hpath in Ho.
  destruct (download_emoji_image_writes env self emoji_id (PStr n) download_dir w r Hr Hs Ho)
    as (w' & Hrun & Hfiles & _).
  rewrite Hpath in Hfiles. eauto.
Qed.

(** X16: two emojis that share a name and an extension share a file: the
    second download replaces what the first wrote. *)
Theorem download_same_name_overwrites (id1 id2 emoji_name : pyval) (download_dir : string)
    (w w1 : world) (r1 r2 : response) (b1 : bool) :
  http_get env w (image_request env self id1) = Responds r1 ->
  status_code r1 = 200%Z ->
  open_error env (record_request (image_request env self id1) w)
    (image_path env download_dir emoji_name r1) = None ->
  download_emoji_image env self id1 emoji_name download_dir w = (Ret b1, w1) ->
  http_get env w1 (image_request env self id2) = Responds r2 ->
  status_code r2 = 200%Z ->
  extension_of (default "" (content_type r2)) = extension_of (default "" (content_type r1)) ->
  open_error env (record_request (image_request env self id2) w1)
    (image_path env download_dir emoji_name r2) = None ->
  exists b2 w2,
    download_emoji_image env self id2 emoji_name download_dir w1 = (Ret b2, w2)
    /\ w_files w1 !! image_path env download_dir emoji_name r1 = Some (body r1)
    /\ w_files w2 !! image_path env download_dir emoji_name r1 = Some (body r2)
    /\ w_files w2 = <[image_path env download_dir emoji_name r1 := body r2]> (w_files w).
Proof.
  intros Hr1 Hs1 Ho1 Hrun1 Hr2 Hs2 Hext Ho2.
  destruct (download_emoji_image_writes env self id1 emoji_name download_dir w r1 Hr1 Hs1 Ho1)
    as (w1' & Hrun1' & Hfiles1 & _).
  rewrite Hrun1 in Hrun1'. injection Hrun1' as _ <-.
  destruct (download_emoji_image_writes env self id2 emoji_name download_dir w1 r2 Hr2 Hs2 Ho2)
    as (w2 & Hrun2 & Hfiles2 & _).
  assert (Hsame : image_path env download_dir emoji_name r2
                  = image_path env download_dir emoji_name r1).
  { unfold image_path. rewrite Hext. reflexivity. }
  rewrite Hsame in Hfiles2.
  eexists _, w2. split; [exact Hrun2|].
  rewrite Hfiles2, Hfiles1. split; [apply lookup_insert_eq|].
  split; [apply lookup_insert_eq | apply insert_insert_eq].
Qed.

(** X17: however they end, a download and the whole download loop leave
    the metadata file of every directory as it was: no emoji name and no
    content type make an image land on [emoji_metadata.json]. *)
Theorem downloads_keep_metadata (download_dir any_dir : string) :
  (forall emoji_id emoji_name w w' (o : outcome bool),
     download_emoji_image env self emoji_id emoji_name download_dir w = (o, w') ->
     w_files w' !! metadata_path any_dir = w_files w !! metadata_path any_dir)
  /\ (forall total emojis i success_count w w' (o : outcome nat),
        download_each env self download_dir total emojis i success_count w = (o, w') ->
        w_files w' !! metadata_path any_dir = w_files w !! metadata_path any_dir).
Proof.
  split.
  - intros emoji_id emoji_name w w' o H.
    exact (download_emoji_image_keeps env self _ _ _ _ _ _ _ H
             (metadata_path_last_char any_dir)).
  - intros total emojis i success_count w w' o H.
    exact (download_each_keeps env self _ _ _ _ (metadata_path_last_char any_dir) _ _ _ _ _ H).
Qed.

End Downloads.

(** An image that is not there, and a disk that cannot be written. *)
Lemma download_failure_leaves_files_witness :
  (exists w',
     download_emoji_image (collection_server []) example_extractor (PStr "abc")
       (PStr "partyparrot") "out" empty_world = (Ret false, w')
     /\ w_files w' = ∅
     /\ exists msg, w_stdout w' = ([] ++ [line msg])%list)
  /\ (exists w',
        download_emoji_image (read_only (failing_after [])) example_extractor (PStr "abc")
          (PStr "partyparrot") "out" empty_world = (Ret false, w')
        /\ w_files w' = ∅
        /\ w_stdout w'
           = ([] ++ [line ("Error downloading partyparrot: "
                           +:+ "[Errno 13] Permission denied: 'out/partyparrot.png'")])%list).
Proof.
  split.
  - apply (proj1 (download_failure_leaves_files (collection_server []) example_extractor
                    (PStr "abc") (PStr "partyparrot") "out" empty_world)).
    apply collection_server_images_fail.
  - exact (proj2 (download_failure_leaves_files (read_only (failing_after []))
                    example_extractor (PStr "abc") (PStr "partyparrot") "out" empty_world)
             (image_response "image/png" ["PNG"]) _ eq_refl eq_refl eq_refl).
Defined.

(** A GIF whose stream breaks after its first chunk. *)
Lemma download_broken_stream_witness :
  let r := {| status_code := 200; text := ""; json := inl ""; content_type := Some "image/gif";
              iter_content := ["GIF89a"]; iter_error := Some "Connection broken" |} in
  exists w',
    download_emoji_image (env_of (fun _ _ => Responds r)) example_extractor (PStr "abc")
      (PStr "partyparrot") "out" empty_world = (Ret false, w')
    /\ w_files w' !! "out/partyparrot.gif" = Some "GIF89a"
    /\ last (w_stdout w') = Some (line "Error downloading partyparrot: Connection broken").
Proof.
  intros r.
  exact (download_broken_stream (env_of (fun _ _ => Responds r)) example_extractor
           (PStr "abc") (PStr "partyparrot") "out" empty_world r "Connection broken"
           eq_refl eq_refl eq_refl eq_refl).
Defined.

(** A name that is an absolute path, and an ordinary one. *)
Lemma download_path_witness :
  let env := env_of (fun _ _ => Responds (image_response "image/png" ["PNG"])) in
  (exists b w',
     download_emoji_image env example_extractor (PStr "abc") (PStr "/tmp/parrot") "out"
       empty_world = (Ret b, w')
     /\ w_files w' = <["/tmp/parrot.png" := "PNG"]> ∅)
  /\ (exists b w',
        download_emoji_image env example_extractor (PStr "abc") (PStr "parrot") "out"
          empty_world = (Ret b, w')
        /\ w_files w' = <["out/parrot.png" := "PNG"]> ∅).
Proof.
  intros env. split.
  - exact (download_path env example_extractor (PStr "abc") "/tmp/parrot" "out" empty_world
             (image_response "image/png" ["PNG"]) eq_refl eq_refl eq_refl).
  - exact (download_path env example_extractor (PStr "abc") "parrot" "out" empty_world
             (image_response "image/png" ["PNG"]) eq_refl eq_refl eq_refl).
Defined.

(** Two emojis named [parrot], both PNG. *)
Lemma download_same_name_overwrites_witness :
  let r1 := image_response "image/png" ["first"] in
  let r2 := image_response "image/png" ["second"] in
  let env := env_of (fun w _ => match w_requests w with
                                | [] => Responds r1
                                | _ => Responds r2
                                end) in
  exists w1 b2 w2,
    download_emoji_image env example_extractor (PStr "id2") (PStr "parrot") "out" w1
    = (Ret b2, w2)
    /\ w_files w1 !! "out/parrot.png" = Some "first"
    /\ w_files w2 !! "out/parrot.png" = Some "second"
    /\ w_files w2 = <["out/parrot.png" := "second"]> ∅.
Proof.
  intros r1 r2 env. eexists.
  eapply (download_same_name_overwrites env example_extractor (PStr "id1") (PStr "id2")
            (PStr "parrot") "out" empty_world _ r1 r2 true).
  - reflexivity.
  - reflexivity.
  - reflexivity.
  - rewrite download_emoji_image_run. reflexivity.
  - reflexivity.
  - reflexivity.
  - reflexivity.
  - reflexivity.
Defined.

(** An emoji named after the metadata file. *)
Lemma downloads_keep_metadata_witness :
  let env := env_of (fun _ _ => Responds (image_response "application/json" ["{}"])) in
  let w := set_files {["out/emoji_metadata.json" := "[]"]} empty_world in
  let run := download_emoji_image env example_extractor (PStr "abc") (PStr "emoji_metadata")
               "out" w in
  w_files (snd run) !! metadata_path "out" = Some "[]".
Proof.
  intros env w run.
  rewrite (proj1 (downloads_keep_metadata env example_extractor "out" "out")
             (PStr "abc") (PStr "emoji_metadata") w _ _ (surjective_pairing run)).
  reflexivity.
Defined.

(** ** Image files and error handling *)


Section Steps.

Context (env : Env) (self : MattermostEmojiExtractor).





End Steps.



